(** * go-lite-logger: the buffered log writer, its levels and the logging facade

  A shallow embedding of the packages [logWriter] (level.go, entry.go,
  writer.go), [logger] (logger.go) and [utils] (the atomic flag).

  The worker is sequential code over one mutable [Worker]; it is embedded
  as a state monad over a [Worker] record whose runs end in one of three
  ways: the call returns, it panics (a slice expression out of range), or
  it parks forever on the mutex or on a channel.  The backing file, the
  clock and the error callback are the worker's environment: the file is
  a field of the state that the environment may change between calls, the
  clock is an oracle, and every call of the callback is recorded in a
  trace together with every write that reaches the file. *)

From Stdlib Require Import ZArith List Bool Lia.
From Stdlib.Strings Require Import String Ascii Byte.
Import ListNotations.

Local Open Scope string_scope.
Local Open Scope list_scope.
Local Open Scope Z_scope.

Set Implicit Arguments.

(* ================================================================= *)
(** ** Go values: machine integers, slices, strings, errors *)

Module Go.

(** [int] is a 64-bit two's complement integer; sums wrap around. *)
Definition int_wrap (z : Z) : Z := (z + 2 ^ 63) mod 2 ^ 64 - 2 ^ 63.

Definition int_add (x y : Z) : Z := int_wrap (x + y).

(** [len(s)] of a slice. *)
Definition len {A : Type} (s : list A) : Z := Z.of_nat (List.length s).

(** [len(s)] of a string: its number of bytes. *)
Definition strlen (s : string) : Z := Z.of_nat (String.length s).

(** [s[lo:]]: panics unless [0 <= lo <= len(s)]; [None] is the panic. *)
Definition slice_from {A : Type} (s : list A) (lo : Z) : option (list A) :=
  if (0 <=? lo) && (lo <=? len s) then Some (skipn (Z.to_nat lo) s) else None.

(** [s[0:hi]] for a slice made by [make([]T, n)], whose capacity is its
    length: panics unless [0 <= hi <= cap(s)]. *)
Definition slice_upto {A : Type} (s : list A) (hi : Z) : option (list A) :=
  if (0 <=? hi) && (hi <=? len s) then Some (firstn (Z.to_nat hi) s) else None.

(** [copy(dst, src)]: the first [min(len(dst), len(src))] elements of
    [src] overwrite the front of [dst]; the result is [dst] afterwards. *)
Definition copy {A : Type} (dst src : list A) : list A :=
  firstn (List.length dst) src ++ skipn (List.length src) dst.

(** The [error] values the repository creates or receives: what the Write
  method of os.File reports (a failed write, a closed file) and what
  [fmt.Errorf] builds (kept as its format and its argument). *)
Inductive error : Type :=
| WriteError
| ClosedError
| Errorf (format : string) (arg : string).

(** [[]byte(s)] *)
Definition bytes (s : string) : list byte := list_byte_of_string s.

End Go.

(* ================================================================= *)
(** ** The environment of the program *)

(** A wall-clock reading, as [time.Time.Date] and [Clock] report it. *)
Record Time : Type := mkTime {
  year : Z; month : Z; day : Z;
  hour : Z; minute : Z; second : Z;
  nanosecond : Z
}.

(** What the program takes from the Go runtime and standard library
  without this repository defining it: the dynamic type [interface{}]
  and its formatting by package [fmt], the clock, the path the compiler
  recorded for writer.go, and the Unicode lower-casing that
  [strings.ToLower] applies to a string holding a byte above 0x7F. *)
Class Runtime : Type := {
  any : Type;
(** a [[]interface{}] stored in an [interface{}] *)
  boxed : list any -> any;
  Sprintf : string -> list any -> string;
  Sprintln : list any -> string;
(** the [n]-th reading of [time.Now] *)
  time_Now : nat -> Time;
(** [runtime.Caller]'s file for a call made in writer.go *)
  caller_file : string;
  unicode_ToLower : string -> string
}.

(* ================================================================= *)
(** ** Package strings (the one function level.go uses) *)

Module strings.

Definition is_upper (c : ascii) : bool :=
  let n := Z.of_nat (nat_of_ascii c) in (65 <=? n) && (n <=? 90).

Definition lower_ascii (c : ascii) : ascii :=
  if is_upper c then ascii_of_nat (nat_of_ascii c + 32) else c.

Fixpoint isASCII (s : string) : bool :=
  match s with
  | EmptyString => true
  | String.String c r => (Z.of_nat (nat_of_ascii c) <? 128) && isASCII r
  end.

Fixpoint map_ascii (f : ascii -> ascii) (s : string) : string :=
  match s with
  | EmptyString => EmptyString
  | String.String c r => String.String (f c) (map_ascii f r)
  end.

(** [strings.ToLower]: an all-ASCII string has ['A'..'Z'] moved to
    ['a'..'z'] byte by byte; any other string goes through the Unicode
    tables. *)
Definition ToLower {rt : Runtime} (s : string) : string :=
  if isASCII s then map_ascii lower_ascii s else unicode_ToLower s.

End strings.

(* ================================================================= *)
(** ** Package utils *)

Module utils.

(** [type TAtomBool struct{ Flag int32 }] *)
Record TAtomBool : Type := mkTAtomBool { Flag : Z }.

Definition Set_ (value : bool) (b : TAtomBool) : TAtomBool :=
  let i := if value then 1 else 0 in
  {| Flag := i |}.

Definition Get (b : TAtomBool) : bool :=
  if negb (Flag b =? 0) then true else false.

End utils.

(* ================================================================= *)
(** ** Package log of the Go standard library: the line a Logger emits *)

Module log.

(** The flag bits: [1 << iota]. *)
Definition Ldate : Z := 1.
Definition Ltime : Z := 2.
Definition Lmicroseconds : Z := 4.
Definition Llongfile : Z := 8.
Definition Lshortfile : Z := 16.
Definition LUTC : Z := 32.
Definition Lmsgprefix : Z := 64.
Definition LstdFlags : Z := Z.lor Ldate Ltime.

(** [flag&bits != 0] *)
Definition has (flag bits : Z) : bool := negb (Z.land flag bits =? 0).

(** [type Logger struct]: the prefix and the flags; the output is the
    worker that owns the handle. *)
Record Logger : Type := New { prefix : string; flag : Z }.

Definition digit (d : Z) : ascii := ascii_of_N (Z.to_N ((48 + d) mod 256)).

(** The loop of [itoa(buf, i, wid)]: decimal digits of [i], zero-padded to
    [wid]; its scratch array holds 20 bytes, which bounds the loop. *)
Fixpoint itoa_loop (room : nat) (i wid : Z) (acc : string) : string :=
  match room with
  | O => acc
  | S room' =>
      if (i >=? 10) || (wid >? 1) then
        let q := Z.quot i 10 in
        itoa_loop room' q (wid - 1) (String.String (digit (i - q * 10)) acc)
      else String.String (digit i) acc
  end.

Definition itoa (i wid : Z) : string := itoa_loop 20 i wid EmptyString.

(** The text after the last ['/'] of [s], when [s] has one. *)
Fixpoint after_last_slash (s : string) : option string :=
  match s with
  | EmptyString => None
  | String.String c r =>
      match after_last_slash r with
      | Some t => Some t
      | None => if Ascii.eqb c "/" then Some r else None
      end
  end.

(** [for i := len(file) - 1; i > 0; i-- { if file[i] == '/' { short =
    file[i+1:]; break } }]: index 0 is not inspected. *)
Definition short (file : string) : string :=
  match file with
  | EmptyString => file
  | String.String _ r =>
      match after_last_slash r with
      | Some t => t
      | None => file
      end
  end.

Definition date_text (t : Time) : string :=
  itoa (year t) 4 ++ "/" ++ itoa (month t) 2 ++ "/" ++ itoa (day t) 2 ++ " ".

Definition clock_text (micro : bool) (t : Time) : string :=
  itoa (hour t) 2 ++ ":" ++ itoa (minute t) 2 ++ ":" ++ itoa (second t) 2
  ++ (if micro then "." ++ itoa (Z.quot (nanosecond t) 1000) 6 else "")
  ++ " ".

Definition stamp_text (flag : Z) (t : Time) : string :=
  if has flag (Z.lor Ldate (Z.lor Ltime Lmicroseconds)) then
    (if has flag Ldate then date_text t else "")
    ++ (if has flag (Z.lor Ltime Lmicroseconds)
        then clock_text (has flag Lmicroseconds) t else "")
  else "".

Definition place_text (flag : Z) (file : string) (line : Z) : string :=
  if has flag (Z.lor Lshortfile Llongfile) then
    (if has flag Lshortfile then short file else file)
    ++ ":" ++ itoa line (-1) ++ ": "
  else "".

(** [formatHeader]: prefix, date and time, file and line, in this order
    (the prefix moves behind them under [Lmsgprefix]). *)
Definition formatHeader (l : Logger) (t : Time) (file : string) (line : Z) : string :=
  (if has (flag l) Lmsgprefix then "" else prefix l)
  ++ stamp_text (flag l) t
  ++ place_text (flag l) file line
  ++ (if has (flag l) Lmsgprefix then prefix l else "").

Fixpoint ends_in_newline (s : string) : bool :=
  match s with
  | EmptyString => false
  | String.String c EmptyString => Ascii.eqb c "010"
  | String.String _ r => ends_in_newline r
  end.

Definition newline : string := String.String "010" EmptyString.

(** What [Output] hands to the logger's writer in one call: the header,
    the message, and a newline when the message does not end in one. *)
Definition line_text (l : Logger) (t : Time) (file : string) (line : Z) (s : string) : string :=
  formatHeader l t file line ++ s ++ (if ends_in_newline s then "" else newline).

End log.

(* ================================================================= *)
(** ** Package logWriter *)

Module logWriter.

(* ----------------------------------------------------------------- *)
(** *** level.go *)

(** [type Level uint32] *)
Definition Level : Type := Z.

Definition ErrorLevel : Level := 0.
Definition WarnLevel : Level := 1.
Definition InfoLevel : Level := 2.
Definition DebugLevel : Level := 3.

Definition AllLevels : list Level :=
  [ErrorLevel; WarnLevel; InfoLevel; DebugLevel].

Module Level.

(** [func (level Level) String() string] *)
Definition String (level : Level) : string :=
  if level =? DebugLevel then "debug"
  else if level =? InfoLevel then "info"
  else if level =? WarnLevel then "warning"
  else if level =? ErrorLevel then "error"
  else "unknown".

End Level.

Definition not_a_level : string := "not a valid logrus Level: %q".

(** [func ParseLevel(lvl string) (Level, error)]; the failing return
    carries the zero [Level]. *)
Definition ParseLevel {rt : Runtime} (lvl : string) : Level * option Go.error :=
  let s := strings.ToLower lvl in
  if String.eqb s "error" then (ErrorLevel, None)
  else if String.eqb s "warn" || String.eqb s "warning" then (WarnLevel, None)
  else if String.eqb s "info" then (InfoLevel, None)
  else if String.eqb s "debug" then (DebugLevel, None)
  else (0, Some (Go.Errorf not_a_level lvl)).

(* ----------------------------------------------------------------- *)
(** *** entry.go *)

Record Entry {rt : Runtime} : Type := mkEntry {
  level : Level;
  message : any;
  format : string
}.

Definition NewEntry {rt : Runtime} (level : Level) (message : any) : Entry :=
  {| level := level; message := message; format := "" |}.

Definition NewFormattedEntry {rt : Runtime}
  (level : Level) (format : string) (message : any) : Entry :=
  {| level := level; message := message; format := format |}.

(* ----------------------------------------------------------------- *)
(** *** The file behind [fileRoot] *)

(** [on_disk]: [os.Stat] of the file's name succeeds.  [failing]: a
    write stores that many bytes at most and reports an error.  [closed]:
    the handle was closed.  [contents]: the bytes written through the
    handle so far (it was opened with [O_APPEND]). *)
Record File : Type := mkFile {
  on_disk : bool;
  failing : option nat;
  closed : bool;
  contents : list byte
}.

Definition File_Write (f : File) (b : list byte) : (Z * option Go.error) * File :=
  if closed f then ((0, Some Go.ClosedError), f)
  else
    match failing f with
    | None =>
        ((Go.len b, None),
         {| on_disk := on_disk f; failing := failing f; closed := closed f;
            contents := contents f ++ b |})
    | Some k =>
        ((Go.len (firstn k b), Some Go.WriteError),
         {| on_disk := on_disk f; failing := failing f; closed := closed f;
            contents := contents f ++ firstn k b |})
    end.

(** [file.Close()]; its error (a second close) is dropped by the caller. *)
Definition File_Close (f : File) : File :=
  {| on_disk := on_disk f; failing := failing f; closed := true;
     contents := contents f |}.

(* ----------------------------------------------------------------- *)
(** *** writer.go: the worker's state *)

(** What the worker does to its environment, in order of occurrence. *)
Inductive event : Type :=
| Called                       (* errorCallback() *)
| Wrote (data : list byte).    (* fileRoot.Write(data) *)

(** [type Worker struct].  [once]: the body of [once.Do] has run.  [lock]:
    the mutex is held.  [ticker]: the ticker runs.  [quitTimer], [done]:
    the channel is closed.  [channel]: the entries queued, oldest first.
    [errorCallback] is opaque; [trace] records its calls.  [reads] counts
    the readings of the clock. *)
Record Worker {rt : Runtime} : Type := mkWorker {
  once : bool;
  fileRoot : File;
  buffer : list byte;
  position : Z;
  Info : log.Logger;
  Warning : log.Logger;
  Error : log.Logger;
  Debug : log.Logger;
  channel : list Entry;
  lock : bool;
  ticker : bool;
  quitTimer : bool;
  done : bool;
  trace : list event;
  reads : nat
}.

Definition defaultFlushLogsTimerInterval : Z := 10.

Definition capacity : Z := 32768.

Definition defaultLogFlag : Z :=
  Z.lor (Z.lor log.LstdFlags log.Lmicroseconds) log.Lshortfile.

Section Updates.
Context {rt : Runtime}.

Definition with_once (v : bool) (w : Worker) : Worker :=
  mkWorker v (fileRoot w) (buffer w) (position w) (Info w) (Warning w) (Error w)
    (Debug w) (channel w) (lock w) (ticker w) (quitTimer w) (done w) (trace w) (reads w).

Definition with_fileRoot (v : File) (w : Worker) : Worker :=
  mkWorker (once w) v (buffer w) (position w) (Info w) (Warning w) (Error w)
    (Debug w) (channel w) (lock w) (ticker w) (quitTimer w) (done w) (trace w) (reads w).

Definition with_buffer (v : list byte) (w : Worker) : Worker :=
  mkWorker (once w) (fileRoot w) v (position w) (Info w) (Warning w) (Error w)
    (Debug w) (channel w) (lock w) (ticker w) (quitTimer w) (done w) (trace w) (reads w).

Definition with_position (v : Z) (w : Worker) : Worker :=
  mkWorker (once w) (fileRoot w) (buffer w) v (Info w) (Warning w) (Error w)
    (Debug w) (channel w) (lock w) (ticker w) (quitTimer w) (done w) (trace w) (reads w).

Definition with_handles (i wa e d : log.Logger) (w : Worker) : Worker :=
  mkWorker (once w) (fileRoot w) (buffer w) (position w) i wa e d
    (channel w) (lock w) (ticker w) (quitTimer w) (done w) (trace w) (reads w).

Definition with_channel (v : list Entry) (w : Worker) : Worker :=
  mkWorker (once w) (fileRoot w) (buffer w) (position w) (Info w) (Warning w) (Error w)
    (Debug w) v (lock w) (ticker w) (quitTimer w) (done w) (trace w) (reads w).

Definition with_lock (v : bool) (w : Worker) : Worker :=
  mkWorker (once w) (fileRoot w) (buffer w) (position w) (Info w) (Warning w) (Error w)
    (Debug w) (channel w) v (ticker w) (quitTimer w) (done w) (trace w) (reads w).

Definition with_ticker (v : bool) (w : Worker) : Worker :=
  mkWorker (once w) (fileRoot w) (buffer w) (position w) (Info w) (Warning w) (Error w)
    (Debug w) (channel w) (lock w) v (quitTimer w) (done w) (trace w) (reads w).

Definition with_quitTimer (v : bool) (w : Worker) : Worker :=
  mkWorker (once w) (fileRoot w) (buffer w) (position w) (Info w) (Warning w) (Error w)
    (Debug w) (channel w) (lock w) (ticker w) v (done w) (trace w) (reads w).

Definition with_done (v : bool) (w : Worker) : Worker :=
  mkWorker (once w) (fileRoot w) (buffer w) (position w) (Info w) (Warning w) (Error w)
    (Debug w) (channel w) (lock w) (ticker w) (quitTimer w) v (trace w) (reads w).

Definition with_trace (v : list event) (w : Worker) : Worker :=
  mkWorker (once w) (fileRoot w) (buffer w) (position w) (Info w) (Warning w) (Error w)
    (Debug w) (channel w) (lock w) (ticker w) (quitTimer w) (done w) v (reads w).

Definition with_reads (v : nat) (w : Worker) : Worker :=
  mkWorker (once w) (fileRoot w) (buffer w) (position w) (Info w) (Warning w) (Error w)
    (Debug w) (channel w) (lock w) (ticker w) (quitTimer w) (done w) (trace w) v.

End Updates.

(* ----------------------------------------------------------------- *)
(** *** How a call on the worker ends *)

Inductive outcome (S A : Type) : Type :=
| Returns (a : A) (s : S)     (* the call returns [a] *)
| Panics (s : S)              (* a run-time panic unwinds the goroutine *)
| Parks (s : S).              (* the goroutine waits forever *)

Arguments Returns {S A} a s.
Arguments Panics {S A} s.
Arguments Parks {S A} s.

Definition M (S A : Type) : Type := S -> outcome S A.

Definition ret {S A : Type} (a : A) : M S A := fun s => Returns a s.

Definition bind {S A B : Type} (m : M S A) (k : A -> M S B) : M S B :=
  fun s =>
    match m s with
    | Returns a s' => k a s'
    | Panics s' => Panics s'
    | Parks s' => Parks s'
    end.

Definition get {S : Type} : M S S := fun s => Returns s s.

Definition modify {S : Type} (f : S -> S) : M S unit := fun s => Returns tt (f s).

Definition panic {S A : Type} : M S A := fun s => Panics s.

Definition park {S A : Type} : M S A := fun s => Parks s.

(** Readings of an outcome: the state it ends in, the value returned, and
    which of the three ways it ended. *)
Definition final {S A : Type} (o : outcome S A) : S :=
  match o with
  | Returns _ s => s
  | Panics s => s
  | Parks s => s
  end.

Definition returned {S A : Type} (o : outcome S A) : option A :=
  match o with
  | Returns a _ => Some a
  | _ => None
  end.

Definition panicked {S A : Type} (o : outcome S A) : bool :=
  match o with
  | Panics _ => true
  | _ => false
  end.

Definition parked {S A : Type} (o : outcome S A) : bool :=
  match o with
  | Parks _ => true
  | _ => false
  end.

Declare Scope go_scope.
Delimit Scope go_scope with go.
Notation "x <- m ;; k" := (bind m (fun x => k))
  (at level 61, m at next level, right associativity) : go_scope.
Notation "' p <- m ;; k" := (bind m (fun x => match x with p => k end))
  (at level 61, p pattern, m at next level, right associativity) : go_scope.
Notation "m ;; k" := (bind m (fun _ => k))
  (at level 61, right associativity) : go_scope.
Local Open Scope go_scope.

(* ----------------------------------------------------------------- *)
(** *** writer.go: the worker's methods *)

Section Methods.
Context {rt : Runtime}.

(** [w.errorCallback()]: the callback is the caller's; its call is recorded. *)
Definition errorCallback : M Worker unit :=
  modify (fun w => with_trace (trace w ++ [Called]) w).

(** [w.lock.Lock()] on a held mutex never returns. *)
Definition Lock : M Worker unit :=
  fun w => if lock w then Parks w else Returns tt (with_lock true w).

Definition Unlock : M Worker unit := modify (with_lock false).

(** [w.fileRoot.Write(b)] *)
Definition fileRoot_Write (b : list byte) : M Worker (Z * option Go.error) :=
  fun w =>
    let (r, f) := File_Write (fileRoot w) b in
    Returns r (with_trace (trace w ++ [Wrote b]) (with_fileRoot f w)).

(** [func (w *Worker) fileExists() bool] *)
Definition fileExists : M Worker bool :=
  fun w => Returns (on_disk (fileRoot w)) w.

(** [func (w *Worker) save() (n int, err error)] *)
Definition save : M Worker (Z * option Go.error) :=
  w <- get ;;
  if position w =? 0 then ret (0, None)
  else
    found <- fileExists ;;
    if found then
      match Go.slice_upto (buffer w) (position w) with
      | None => panic
      | Some chunk =>
          '(n, err) <- fileRoot_Write chunk ;;
          match err with
          | None => modify (with_position 0) ;; ret (n, err)
          | Some _ => ret (n, err)
          end
      end
    else
      errorCallback ;; ret (0, None).

(** The tail of [Write]: [copy(w.buffer[w.position:], data)],
    [w.position += length], [w.lock.Unlock()], [return n, err]. *)
Definition Write_copy (data : list byte) (r : Z * option Go.error)
  : M Worker (Z * option Go.error) :=
  w <- get ;;
  match Go.slice_from (buffer w) (position w) with
  | None => panic
  | Some dst =>
      modify (with_buffer (firstn (Z.to_nat (position w)) (buffer w) ++ Go.copy dst data)) ;;
      modify (with_position (Go.int_add (position w) (Go.len data))) ;;
      Unlock ;;
      ret r
  end.

(** [func (w *Worker) Write(data []byte) (n int, err error)]; the return
    inside the [if] leaves the mutex held. *)
Definition Write (data : list byte) : M Worker (Z * option Go.error) :=
  let length := Go.len data in
  Lock ;;
  w <- get ;;
  if Go.int_add length (position w) >? capacity then
    '(n, err) <- save ;;
    match err with
    | Some _ => errorCallback ;; ret (n, err)
    | None => Write_copy data (n, err)
    end
  else Write_copy data (0, None).

(** The Output method of log.Logger with the worker as its writer: one reading of
    the clock, one call of [Write]. *)
Definition Output (l : log.Logger) (line : Z) (s : string) : M Worker (option Go.error) :=
  w <- get ;;
  let now := time_Now (reads w) in
  modify (with_reads (S (reads w))) ;;
  '(_, err) <- Write (Go.bytes (log.line_text l now caller_file line s)) ;;
  ret err.

(** [l.Printf(format, v...)] and [l.Println(v...)] called at [line] of
    writer.go; both drop [Output]'s error. *)
Definition Printf (l : log.Logger) (line : Z) (format : string) (v : list any)
  : M Worker unit :=
  Output l line (Sprintf format v) ;; ret tt.

Definition Println (l : log.Logger) (line : Z) (v : list any) : M Worker unit :=
  Output l line (Sprintln v) ;; ret tt.

(** [func (w *Worker) writeToBuffer(event Entry)] *)
Definition writeToBuffer (event : Entry) : M Worker unit :=
  w <- get ;;
  if level event =? WarnLevel then
    if Go.strlen (format event) >? 0
    then Printf (Warning w) 137 (format event) [message event]
    else Println (Warning w) 139 [message event]
  else if level event =? InfoLevel then
    if Go.strlen (format event) >? 0
    then Printf (Info w) 143 (format event) [message event]
    else Println (Info w) 145 [message event]
  else if level event =? DebugLevel then
    if Go.strlen (format event) >? 0
    then Printf (Debug w) 149 (format event) [message event]
    else Println (Debug w) 151 [message event]
  else if level event =? ErrorLevel then
    if Go.strlen (format event) >? 0
    then Printf (Error w) 155 (format event) [message event]
    else Println (Error w) 157 [message event]
  else ret tt.

(** [event := <-w.channel]: with nothing queued the receive waits. *)
Definition receive : M Worker Entry :=
  fun w =>
    match channel w with
    | [] => Parks w
    | event :: rest => Returns event (with_channel rest w)
    end.

(** One turn of the loop of [Work]; [false] when the loop returns. *)
Definition Work_step : M Worker bool :=
  w <- get ;;
  if done w then ret false
  else
    event <- receive ;;
    writeToBuffer event ;;
    ret true.

(** [func (w *Worker) Work()]: the loop, for [fuel] turns at most.  The
    result is [Some tt] when the loop has returned and [None] when it is
    still running after [fuel] turns. *)
Fixpoint Work (fuel : nat) : M Worker (option unit) :=
  match fuel with
  | O => ret None
  | S fuel' =>
      again <- Work_step ;;
      if again then Work fuel' else ret (Some tt)
  end.

(** [for i := 0; i < length; i++ { event := <-w.channel;
    w.writeToBuffer(event) }] *)
Fixpoint drain (length : nat) : M Worker unit :=
  match length with
  | O => ret tt
  | S length' =>
      event <- receive ;;
      writeToBuffer event ;;
      drain length'
  end.

(** [close(c)] of a closed channel panics. *)
Definition close_done : M Worker unit :=
  fun w => if done w then Panics w else Returns tt (with_done true w).

Definition close_quitTimer : M Worker unit :=
  fun w => if quitTimer w then Panics w else Returns tt (with_quitTimer true w).

(** [func (w *Worker) CloseWorker()] *)
Definition CloseWorker : M Worker unit :=
  w <- get ;;
  if once w then ret tt
  else
    modify (with_once true) ;;
    close_done ;;
    close_quitTimer ;;
    Lock ;;
    save ;;
    Unlock ;;
    w' <- get ;;
    let length := List.length (channel w') in
    drain length ;;
    Lock ;;
    save ;;
    Unlock.

(** The two cases of the [select] in [doTimerJob]'s goroutine. *)
Definition doTimerJob_tick : M Worker unit :=
  Lock ;;
  '(_, err) <- save ;;
  match err with
  | Some _ => errorCallback
  | None => ret tt
  end ;;
  Unlock.

Definition doTimerJob_quit : M Worker unit := modify (with_ticker false).

(** [func (w *Worker) createLogHandles()] *)
Definition createLogHandles (w : Worker) : Worker :=
  with_handles
    (log.New "[INFO]  " defaultLogFlag)
    (log.New "[WARN]  " defaultLogFlag)
    (log.New "[ERROR] " defaultLogFlag)
    (log.New "[DEBUG] " defaultLogFlag)
    w.

(** [func (w *Worker) init()]; starting the timer goroutine changes no field. *)
Definition init (w : Worker) : Worker := createLogHandles w.

(** [func NewWorker(file, channel, errorCallback) *Worker] *)
Definition NewWorker (file : File) (channel : list Entry) : Worker :=
  let newWorker :=
    {| once := false;
       fileRoot := file;
       buffer := repeat x00 (Z.to_nat capacity);
       position := 0;
       Info := log.New "" 0;
       Warning := log.New "" 0;
       Error := log.New "" 0;
       Debug := log.New "" 0;
       channel := channel;
       lock := false;
       ticker := true;
       quitTimer := false;
       done := false;
       trace := [];
       reads := O |} in
  init newWorker.

(** The bytes buffered and not yet flushed: [w.buffer[0:w.position]]. *)
Definition pending (w : Worker) : list byte :=
  firstn (Z.to_nat (position w)) (buffer w).

(** Everything handed to the worker that is either on file or waiting in
    the buffer. *)
Definition stream (w : Worker) : list byte :=
  contents (fileRoot w) ++ pending w.

(** How often the callback ran, and how often the file was written to. *)
Definition calls (w : Worker) : nat :=
  List.length (filter (fun e => match e with Called => true | _ => false end) (trace w)).

Definition writes (w : Worker) : nat :=
  List.length (filter (fun e => match e with Wrote _ => true | _ => false end) (trace w)).

(* ----------------------------------------------------------------- *)
(** *** Runs of several steps *)

(** A step is a call on the worker or something its surroundings do: a
    producer queues an entry, the file is removed from the disk or put
    back, writes start or stop failing. *)
Inductive step : Type :=
| DoWrite (data : list byte)
| DoSave
| DoTick
| DoLog (event : Entry)
| DoWork
| DoClose
| Enqueue (event : Entry)
| Unlink
| Recreate
| Break (k : nat)
| Mend.

Definition set_on_disk (v : bool) (f : File) : File :=
  {| on_disk := v; failing := failing f; closed := closed f; contents := contents f |}.

Definition set_failing (v : option nat) (f : File) : File :=
  {| on_disk := on_disk f; failing := v; closed := closed f; contents := contents f |}.

Definition perform (s : step) : M Worker unit :=
  match s with
  | DoWrite data => Write data ;; ret tt
  | DoSave => save ;; ret tt
  | DoTick => doTimerJob_tick
  | DoLog event => writeToBuffer event
  | DoWork => Work_step ;; ret tt
  | DoClose => CloseWorker
  | Enqueue event => modify (fun w => with_channel (channel w ++ [event]) w)
  | Unlink => modify (fun w => with_fileRoot (set_on_disk false (fileRoot w)) w)
  | Recreate => modify (fun w => with_fileRoot (set_on_disk true (fileRoot w)) w)
  | Break k => modify (fun w => with_fileRoot (set_failing (Some k) (fileRoot w)) w)
  | Mend => modify (fun w => with_fileRoot (set_failing None (fileRoot w)) w)
  end.

Fixpoint run (steps : list step) : M Worker unit :=
  match steps with
  | [] => ret tt
  | s :: rest => perform s ;; run rest
  end.

End Methods.

End logWriter.

(* ================================================================= *)
(** ** Package logger: the facade that enqueues entries *)

Module logger.

Import logWriter.
Local Open Scope go_scope.

(** [type Logger struct].  The facade's [channel] is the worker's channel
    and its [logFile] the worker's [fileRoot]: one object each, reached
    here through [worker].  [stopCh]: the channel is closed. *)
Record Logger {rt : Runtime} : Type := mkLogger {
  once : bool;
  filename : string;
  logLevel : Level;
  status : utils.TAtomBool;
  stopCh : bool;
  worker : Worker
}.

Section Methods.
Context {rt : Runtime}.

Definition channel (logger : Logger) : list Entry :=
  logWriter.channel (worker logger).

Definition with_channel (q : list Entry) (logger : Logger) : Logger :=
  mkLogger (once logger) (filename logger) (logLevel logger) (status logger)
    (stopCh logger) (logWriter.with_channel q (worker logger)).

(** [func (logger *Logger) SetLevel(level logWriter.Level)] *)
Definition SetLevel (level : Level) (logger : Logger) : Logger :=
  mkLogger (once logger) (filename logger) level (status logger)
    (stopCh logger) (worker logger).

Definition GetLevel (logger : Logger) : Level := logLevel logger.

Definition SetStatus (value : bool) (logger : Logger) : Logger :=
  mkLogger (once logger) (filename logger) (logLevel logger)
    (utils.Set_ value (status logger)) (stopCh logger) (worker logger).

Definition GetStatus (logger : Logger) : bool := utils.Get (status logger).

(** [func (logger *Logger) isLoggable(level logWriter.Level) bool] *)
Definition isLoggable (logger : Logger) (level : Level) : bool :=
  Bool.eqb (utils.Get (status logger)) true && (logLevel logger >=? level).

(** [logger.channel <- entry] on the channel made with room for 2048
    entries: with the channel full the send waits. *)
Definition send (entry : Entry) : M Logger unit :=
  fun logger =>
    if Go.len (channel logger) <? 2048
    then Returns tt (with_channel (channel logger ++ [entry]) logger)
    else Parks logger.

(** [func (logger *Logger) logEntry(level logWriter.Level, args ...interface{})] *)
Definition logEntry (level : Level) (args : list any) : M Logger unit :=
  logger <- get ;;
  if stopCh logger then ret tt
  else
    let entry := NewEntry level (boxed args) in
    send entry.

(** [func (logger *Logger) logFormattedEntry(level logWriter.Level,
    format string, args ...interface{})] *)
Definition logFormattedEntry (level : Level) (format : string) (args : list any)
  : M Logger unit :=
  logger <- get ;;
  if stopCh logger then ret tt
  else
    let entry := NewFormattedEntry DebugLevel format (boxed args) in
    send entry.

(** The callers hand their own [args] on as one argument. *)
Definition Debug (args : list any) : M Logger unit :=
  logger <- get ;;
  if isLoggable logger DebugLevel then logEntry DebugLevel [boxed args] else ret tt.

Definition Info (args : list any) : M Logger unit :=
  logger <- get ;;
  if isLoggable logger InfoLevel then logEntry InfoLevel [boxed args] else ret tt.

Definition Warn (args : list any) : M Logger unit :=
  logger <- get ;;
  if isLoggable logger WarnLevel then logEntry WarnLevel [boxed args] else ret tt.

Definition Error (args : list any) : M Logger unit :=
  logger <- get ;;
  if isLoggable logger ErrorLevel then logEntry ErrorLevel [boxed args] else ret tt.

Definition Debugf (format : string) (args : list any) : M Logger unit :=
  logger <- get ;;
  if isLoggable logger DebugLevel
  then logFormattedEntry DebugLevel format [boxed args] else ret tt.

Definition Infof (format : string) (args : list any) : M Logger unit :=
  logger <- get ;;
  if isLoggable logger InfoLevel
  then logFormattedEntry InfoLevel format [boxed args] else ret tt.

Definition Warnf (format : string) (args : list any) : M Logger unit :=
  logger <- get ;;
  if isLoggable logger WarnLevel
  then logFormattedEntry WarnLevel format [boxed args] else ret tt.

Definition Errorf (format : string) (args : list any) : M Logger unit :=
  logger <- get ;;
  if isLoggable logger ErrorLevel
  then logFormattedEntry ErrorLevel format [boxed args] else ret tt.

(** A call on the worker made through the facade. *)
Definition on_worker {A : Type} (m : M Worker A) : M Logger A :=
  fun logger =>
    let put w :=
      mkLogger (once logger) (filename logger) (logLevel logger) (status logger)
        (stopCh logger) w in
    match m (worker logger) with
    | Returns a w => Returns a (put w)
    | Panics w => Panics (put w)
    | Parks w => Parks (put w)
    end.

(** [close(logger.stopCh)] *)
Definition close_stopCh : M Logger unit :=
  fun logger =>
    if stopCh logger then Panics logger
    else Returns tt
      (mkLogger (once logger) (filename logger) (logLevel logger) (status logger)
         true (worker logger)).

(** [func (logger *Logger) CloseLogger()] *)
Definition CloseLogger : M Logger unit :=
  logger <- get ;;
  if once logger then ret tt
  else
    modify (fun l => mkLogger true (filename l) (logLevel l) (status l)
                       (stopCh l) (worker l)) ;;
    close_stopCh ;;
    on_worker CloseWorker ;;
    on_worker (modify (fun w => with_fileRoot (File_Close (fileRoot w)) w)).

(** [getInstance] and [init] on an opened file: status on, nothing
    queued, the worker started. *)
Definition getInstance (level : Level) (filePath : string) (file : File) : Logger :=
  {| once := false;
     filename := filePath;
     logLevel := level;
     status := {| utils.Flag := 1 |};
     stopCh := false;
     worker := NewWorker file [] |}.

End Methods.

End logger.

(* ================================================================= *)
(** ** A runtime to evaluate the program on *)

(** Values are texts; [fmt] prints them side by side, the format string
    of [Sprintf] put before them, and [Sprintln] ends the line.  The clock
    stands still at 2009/01/23 01:23:23.123123. *)
Definition sample_time : Time :=
  {| year := 2009; month := 1; day := 23;
     hour := 1; minute := 23; second := 23; nanosecond := 123123000 |}.

Definition sample_runtime : Runtime := {|
  any := string;
  boxed := fun vs => String.concat " " vs;
  Sprintf := fun format vs => (format ++ String.concat " " vs)%string;
  Sprintln := fun vs => (String.concat " " vs ++ log.newline)%string;
  time_Now := fun _ => sample_time;
  caller_file := "/go/src/github.com/shyamgrover/go-lite-logger/logWriter/writer.go";
  unicode_ToLower := fun s => s
|}.

(** Sample inputs: an empty file in good order, a span of [n] bytes, a
    worker just made, an entry at level Info. *)
Definition sample_file : logWriter.File :=
  {| logWriter.on_disk := true; logWriter.failing := None;
     logWriter.closed := false; logWriter.contents := [] |}.

Definition span (n : Z) : list byte := repeat "A"%byte (Z.to_nat n).

Definition fresh : logWriter.Worker (rt := sample_runtime) :=
  logWriter.NewWorker (rt := sample_runtime) sample_file [].

Definition hello : logWriter.Entry (rt := sample_runtime) :=
  logWriter.NewEntry (rt := sample_runtime) logWriter.InfoLevel "hello".

(** A worker with five bytes pending, the same with its file gone from the
    disk, and the same with its file failing every write. *)
Definition loaded : logWriter.Worker (rt := sample_runtime) :=
  logWriter.with_position 5
    (logWriter.with_buffer (span 5 ++ repeat "000"%byte (Z.to_nat 32763)) fresh).

Definition orphaned : logWriter.Worker (rt := sample_runtime) :=
  logWriter.with_fileRoot (logWriter.set_on_disk false sample_file) loaded.

Definition jammed : logWriter.Worker (rt := sample_runtime) :=
  logWriter.with_fileRoot (logWriter.set_failing (Some O) sample_file) loaded.

(** An entry whose message is longer than the buffer. *)
Definition oversized : logWriter.Entry (rt := sample_runtime) :=
  logWriter.NewEntry (rt := sample_runtime) logWriter.InfoLevel
    (string_of_list_byte (span 32768)).

(** A facade just made at level Info. *)
Definition sample_logger : logger.Logger (rt := sample_runtime) :=
  logger.getInstance (rt := sample_runtime) logWriter.InfoLevel "myLogger.log" sample_file.

Definition greeting : logWriter.Entry (rt := sample_runtime) :=
  logWriter.NewFormattedEntry (rt := sample_runtime) logWriter.InfoLevel "said " "hello".

(* ================================================================= *)
(** ** Vocabulary for the statements *)

Section Vocabulary.
Context {rt : Runtime}.

Import logWriter.

(** The cursor is inside the buffer, which has its full size. *)
Definition in_bounds (w : Worker) : Prop :=
  Go.len (buffer w) = capacity /\ 0 <= position w <= capacity.

(** The file is on the disk, open, and takes writes. *)
Definition healthy (f : File) : Prop :=
  on_disk f = true /\ failing f = None /\ closed f = false.

(** The four handles are the ones [createLogHandles] installs. *)
Definition handles_installed (w : Worker) : Prop :=
  Info w = log.New "[INFO]  " defaultLogFlag /\
  Warning w = log.New "[WARN]  " defaultLogFlag /\
  Error w = log.New "[ERROR] " defaultLogFlag /\
  Debug w = log.New "[DEBUG] " defaultLogFlag.

(** The handle [writeToBuffer] picks for an entry and the line of
    writer.go it calls the handle on; nothing for a level that is none of
    the four. *)
Definition call_site (w : Worker) (event : Entry) : option (log.Logger * Z) :=
  let formatted := Go.strlen (format event) >? 0 in
  if level event =? WarnLevel then Some (Warning w, if formatted then 137 else 139)
  else if level event =? InfoLevel then Some (Info w, if formatted then 143 else 145)
  else if level event =? DebugLevel then Some (Debug w, if formatted then 149 else 151)
  else if level event =? ErrorLevel then Some (Error w, if formatted then 155 else 157)
  else None.

(** The prefix [createLogHandles] gives the handle of each level. *)
Definition tag (level : Level) : string :=
  if level =? WarnLevel then "[WARN]  "
  else if level =? InfoLevel then "[INFO]  "
  else if level =? DebugLevel then "[DEBUG] "
  else "[ERROR] ".

(** The line of writer.go on which [writeToBuffer] calls the handle. *)
Definition site (event : Entry) : Z :=
  let formatted := Go.strlen (format event) >? 0 in
  if level event =? WarnLevel then (if formatted then 137 else 139)
  else if level event =? InfoLevel then (if formatted then 143 else 145)
  else if level event =? DebugLevel then (if formatted then 149 else 151)
  else (if formatted then 155 else 157).

(** The message text of an entry: [Sprintf] under a format, [Sprintln]
    without one. *)
Definition printed (event : Entry) : string :=
  if Go.strlen (format event) >? 0
  then Sprintf (format event) [message event]
  else Sprintln [message event].

(** The bytes [writeToBuffer] hands to [Write] for an entry when the clock
    has been read [n] times before. *)
Definition rendered (w : Worker) (n : nat) (event : Entry) : option (list byte) :=
  match call_site w event with
  | None => None
  | Some (l, line) =>
      Some (Go.bytes (log.line_text l (time_Now n) caller_file line (printed event)))
  end.

(** All the bytes a queue of entries renders to, the clock read once per
    entry that is rendered. *)
Fixpoint rendered_all (w : Worker) (n : nat) (queue : list Entry) : list byte :=
  match queue with
  | [] => []
  | event :: rest =>
      match rendered w n event with
      | None => rendered_all w n rest
      | Some b => b ++ rendered_all w (S n) rest
      end
  end.

(** Every entry of the queue renders to at most [capacity] bytes, whenever
    the clock is read. *)
Definition all_fit (w : Worker) (queue : list Entry) : Prop :=
  forall event n b, In event queue -> rendered w n event = Some b -> Go.len b <= capacity.

(** The worker after [copy(w.buffer[w.position:], data)] and
    [w.position += length]. *)
Definition put (data : list byte) (w : Worker) : Worker :=
  with_position (Go.int_add (position w) (Go.len data))
    (with_buffer
       (firstn (Z.to_nat (position w)) (buffer w)
        ++ Go.copy (skipn (Z.to_nat (position w)) (buffer w)) data) w).

(** [w'] has the handles and the latches of [w]. *)
Definition same_fixed (w w' : Worker) : Prop :=
  once w' = once w /\ Info w' = Info w /\ Warning w' = Warning w /\
  Error w' = Error w /\ Debug w' = Debug w /\
  ticker w' = ticker w /\ quitTimer w' = quitTimer w /\ done w' = done w.

(** [w'] has the handles, the queue, the latches and the clock of [w]. *)
Definition same_setup (w w' : Worker) : Prop :=
  once w' = once w /\ Info w' = Info w /\ Warning w' = Warning w /\
  Error w' = Error w /\ Debug w' = Debug w /\ channel w' = channel w /\
  ticker w' = ticker w /\ quitTimer w' = quitTimer w /\ done w' = done w /\
  reads w' = reads w.

(** [w'] has the four handles of [w]. *)
Definition same_handles (w w' : Worker) : Prop :=
  Info w' = Info w /\ Warning w' = Warning w /\
  Error w' = Error w /\ Debug w' = Debug w.

(** A worker between two calls, nothing having gone wrong: the mutex is
    free, the cursor is inside the buffer, the file is in good order,
    every queued entry renders to a line that fits the buffer, and the two
    channels of a worker not yet closed are open. *)
Definition ready (w : Worker) : Prop :=
  lock w = false /\ in_bounds w /\ healthy (fileRoot w) /\
  all_fit w (channel w) /\
  (once w = false -> done w = false /\ quitTimer w = false).

(** The steps that keep a worker [ready]: appends of at most [capacity]
    bytes, entries whose line fits the buffer, flushes, turns of the loop
    of [Work], closing, and a file that is put back or mended; not a file
    that is removed or starts failing. *)
Definition gentle (w : Worker) (s : step) : Prop :=
  match s with
  | DoWrite data => Go.len data <= capacity
  | DoLog event => all_fit w [event]
  | Enqueue event => all_fit w [event]
  | Unlink => False
  | Break _ => False
  | _ => True
  end.

End Vocabulary.

(** The layout that section 6 of the specification gives for an entry:
    prefix, timestamp with microseconds, message, newline. *)
Definition claimed_line (prefix : string) (t : Time) (msg : string) : string :=
  prefix ++ log.date_text t ++ log.clock_text true t ++ msg ++ log.newline.

(* ================================================================= *)
(** ** Levels *)

Section LevelProperties.
Context {rt : Runtime}.

Import logWriter.

Lemma ToLower_ascii (s : string) :
  strings.isASCII s = true ->
  strings.ToLower s = strings.map_ascii strings.lower_ascii s.
Proof.
  intros H. unfold strings.ToLower. now rewrite H.
Qed.

Lemma ParseLevel_unmatched (s : string) :
  strings.ToLower s <> "error" ->
  strings.ToLower s <> "warn" ->
  strings.ToLower s <> "warning" ->
  strings.ToLower s <> "info" ->
  strings.ToLower s <> "debug" ->
  ParseLevel s = (0, Some (Go.Errorf "not a valid logrus Level: %q" s)).
Proof.
  intros He Hw Hw' Hi Hd. unfold ParseLevel.
  destruct (String.eqb_spec (strings.ToLower s) "error"); [contradiction|].
  destruct (String.eqb_spec (strings.ToLower s) "warn"); [contradiction|].
  destruct (String.eqb_spec (strings.ToLower s) "warning"); [contradiction|].
  destruct (String.eqb_spec (strings.ToLower s) "info"); [contradiction|].
  destruct (String.eqb_spec (strings.ToLower s) "debug"); [contradiction|].
  reflexivity.
Qed.

Lemma ParseLevel_matched (s : string) (l : Level) :
  ParseLevel s = (l, None) ->
  strings.ToLower s = "error" /\ l = ErrorLevel \/
  (strings.ToLower s = "warn" \/ strings.ToLower s = "warning") /\ l = WarnLevel \/
  strings.ToLower s = "info" /\ l = InfoLevel \/
  strings.ToLower s = "debug" /\ l = DebugLevel.
Proof.
  unfold ParseLevel.
  destruct (String.eqb_spec (strings.ToLower s) "error") as [E|E].
  { intros H; inversion H; auto. }
  destruct (String.eqb_spec (strings.ToLower s) "warn") as [W|W].
  { intros H; inversion H; auto. }
  destruct (String.eqb_spec (strings.ToLower s) "warning") as [W'|W'].
  { intros H; inversion H; auto. }
  destruct (String.eqb_spec (strings.ToLower s) "info") as [I|I].
  { intros H; inversion H; auto 6. }
  destruct (String.eqb_spec (strings.ToLower s) "debug") as [D|D].
  { intros H; inversion H; auto 6. }
  discriminate.
Qed.

(** C9. Parsing the name of each of the four levels gives the level back,
    and a text whose lower-cased form is none of "error", "warn",
    "warning", "info", "debug" is refused with the error built from
    "not a valid logrus Level: %q" and the text itself. *)
Theorem ParseLevel_String_roundtrip :
  (forall l : Level,
     In l AllLevels -> ParseLevel (Level.String l) = (l, None)) /\
  (forall s : string,
     strings.ToLower s <> "error" ->
     strings.ToLower s <> "warn" ->
     strings.ToLower s <> "warning" ->
     strings.ToLower s <> "info" ->
     strings.ToLower s <> "debug" ->
     ParseLevel s = (0, Some (Go.Errorf "not a valid logrus Level: %q" s))).
Proof.
  split.
  - intros l Hl. unfold AllLevels in Hl. simpl in Hl.
    destruct Hl as [<-|[<-|[<-|[<-|[]]]]]; reflexivity.
  - exact ParseLevel_unmatched.
Qed.

(** The names of the four levels are four different texts, and "unknown"
    is the name of exactly the values that are none of the four. *)
Theorem Level_String_names :
  (forall l : Level, Level.String l = "unknown" <-> ~ In l AllLevels) /\
  (forall l l' : Level,
     In l AllLevels -> In l' AllLevels ->
     Level.String l = Level.String l' -> l = l').
Proof.
  split.
  - intros l. unfold Level.String, AllLevels. simpl.
    destruct (Z.eqb_spec l DebugLevel) as [->|Hd].
    { split; [discriminate|intros H; exfalso; apply H; auto]. }
    destruct (Z.eqb_spec l InfoLevel) as [->|Hi].
    { split; [discriminate|intros H; exfalso; apply H; auto]. }
    destruct (Z.eqb_spec l WarnLevel) as [->|Hw].
    { split; [discriminate|intros H; exfalso; apply H; auto]. }
    destruct (Z.eqb_spec l ErrorLevel) as [->|He].
    { split; [discriminate|intros H; exfalso; apply H; auto]. }
    split; [|reflexivity].
    intros _ [H|[H|[H|[H|[]]]]]; congruence.
  - intros l l' Hl Hl'. unfold AllLevels in Hl, Hl'. simpl in Hl, Hl'.
    destruct Hl as [<-|[<-|[<-|[<-|[]]]]];
      destruct Hl' as [<-|[<-|[<-|[<-|[]]]]];
      intros H; try reflexivity; discriminate H.
Qed.

(** Every outcome of [ParseLevel].  Either it succeeds with one of the
    four levels, whose name is the lower-cased text, save that "warn"
    gives the level named "warning"; or the lower-cased text is none of
    the five names and it fails with the error carrying the text as given,
    the level returned being the zero value, which is [ErrorLevel]. *)
Theorem ParseLevel_outcomes (s : string) :
  (exists l : Level,
     ParseLevel s = (l, None) /\ In l AllLevels /\
     (Level.String l = strings.ToLower s \/
      strings.ToLower s = "warn" /\ l = WarnLevel)) \/
  (ParseLevel s = (ErrorLevel, Some (Go.Errorf "not a valid logrus Level: %q" s)) /\
   ~ In (strings.ToLower s) ["error"; "warn"; "warning"; "info"; "debug"]).
Proof.
  unfold ParseLevel.
  destruct (String.eqb_spec (strings.ToLower s) "error") as [E|E].
  { left. exists ErrorLevel. rewrite E. simpl. auto. }
  destruct (String.eqb_spec (strings.ToLower s) "warn") as [W|W].
  { left. exists WarnLevel. simpl. auto 6. }
  destruct (String.eqb_spec (strings.ToLower s) "warning") as [W'|W'].
  { left. exists WarnLevel. rewrite W'. simpl. auto. }
  destruct (String.eqb_spec (strings.ToLower s) "info") as [I|I].
  { left. exists InfoLevel. rewrite I. simpl. auto 6. }
  destruct (String.eqb_spec (strings.ToLower s) "debug") as [D|D].
  { left. exists DebugLevel. rewrite D. simpl. auto 7. }
  right. split; [reflexivity|].
  simpl. intros [H|[H|[H|[H|[H|[]]]]]]; congruence.
Qed.

(** [ParseLevel] does not tell apart two all-ASCII texts that differ in
    the case of their letters only: it gives them the same level and fails
    on both or on neither. *)
Theorem ParseLevel_ignores_ascii_case (s t : string) :
  strings.isASCII s = true ->
  strings.isASCII t = true ->
  strings.map_ascii strings.lower_ascii s = strings.map_ascii strings.lower_ascii t ->
  fst (ParseLevel s) = fst (ParseLevel t) /\
  (snd (ParseLevel s) = None <-> snd (ParseLevel t) = None).
Proof.
  intros Hs Ht H. unfold ParseLevel.
  rewrite (ToLower_ascii s Hs), (ToLower_ascii t Ht), H.
  set (u := strings.map_ascii strings.lower_ascii t).
  destruct (String.eqb u "error"); [simpl; tauto|].
  destruct (String.eqb u "warn" || String.eqb u "warning"); [simpl; tauto|].
  destruct (String.eqb u "info"); [simpl; tauto|].
  destruct (String.eqb u "debug"); [simpl; tauto|].
  simpl. split; [reflexivity|]. split; discriminate.
Qed.

End LevelProperties.

(* ================================================================= *)
(** ** The worker: flushing *)

Section SaveProperties.
Context {rt : Runtime}.

Import logWriter.
Local Open Scope go_scope.

Lemma save_empty (w : Worker) :
  position w = 0 -> save w = Returns (0, None) w.
Proof.
  intros H. unfold save, bind, get, ret. now rewrite H.
Qed.

Lemma save_missing (w : Worker) :
  position w <> 0 ->
  on_disk (fileRoot w) = false ->
  save w = Returns (0, None) (with_trace (trace w ++ [Called]) w).
Proof.
  intros Hp Hd. unfold save, bind, get, ret, fileExists.
  destruct (Z.eqb_spec (position w) 0) as [E|_]; [contradiction|].
  rewrite Hd. reflexivity.
Qed.

Lemma slice_upto_in_range {A : Type} (s : list A) (hi : Z) :
  0 <= hi <= Go.len s ->
  Go.slice_upto s hi = Some (firstn (Z.to_nat hi) s).
Proof.
  intros [H0 H1]. unfold Go.slice_upto.
  destruct (Z.leb_spec 0 hi); [|lia].
  destruct (Z.leb_spec hi (Go.len s)); [|lia].
  reflexivity.
Qed.

Lemma slice_upto_out_of_range {A : Type} (s : list A) (hi : Z) :
  hi < 0 \/ Go.len s < hi -> Go.slice_upto s hi = None.
Proof.
  intros H. unfold Go.slice_upto.
  destruct (Z.leb_spec 0 hi); destruct (Z.leb_spec hi (Go.len s));
    simpl; try reflexivity; lia.
Qed.

Lemma slice_from_in_range {A : Type} (s : list A) (lo : Z) :
  0 <= lo <= Go.len s ->
  Go.slice_from s lo = Some (skipn (Z.to_nat lo) s).
Proof.
  intros [H0 H1]. unfold Go.slice_from.
  destruct (Z.leb_spec 0 lo); [|lia].
  destruct (Z.leb_spec lo (Go.len s)); [|lia].
  reflexivity.
Qed.

Lemma slice_from_out_of_range {A : Type} (s : list A) (lo : Z) :
  lo < 0 \/ Go.len s < lo -> Go.slice_from s lo = None.
Proof.
  intros H. unfold Go.slice_from.
  destruct (Z.leb_spec 0 lo); destruct (Z.leb_spec lo (Go.len s));
    simpl; try reflexivity; lia.
Qed.

Lemma len_pending (w : Worker) :
  0 <= position w <= Go.len (buffer w) -> Go.len (pending w) = position w.
Proof.
  intros H. unfold pending, Go.len in *. rewrite length_firstn. lia.
Qed.

(** A flush of a non-empty buffer onto a file in good order. *)
Lemma save_written (w : Worker) :
  position w <> 0 ->
  0 <= position w <= Go.len (buffer w) ->
  healthy (fileRoot w) ->
  save w =
    Returns (position w, None)
      (with_position 0
         (with_trace (trace w ++ [Wrote (pending w)])
            (with_fileRoot
               {| on_disk := true; failing := None; closed := false;
                  contents := contents (fileRoot w) ++ pending w |} w))).
Proof.
  intros Hp Hr (Hd & Hf & Hc). unfold save, bind, get, ret, fileExists.
  destruct (Z.eqb_spec (position w) 0) as [E|_]; [contradiction|].
  rewrite Hd, slice_upto_in_range by exact Hr.
  unfold fileRoot_Write, File_Write. rewrite Hc, Hf. simpl.
  unfold modify. simpl. fold (pending w).
  rewrite len_pending by exact Hr. rewrite ?Hd, ?Hc, ?Hf. reflexivity.
Qed.

(** A flush whose write fails after [k] bytes. *)
Lemma save_failed (w : Worker) (k : nat) :
  position w <> 0 ->
  0 <= position w <= Go.len (buffer w) ->
  on_disk (fileRoot w) = true ->
  closed (fileRoot w) = false ->
  failing (fileRoot w) = Some k ->
  save w =
    Returns (Go.len (firstn k (pending w)), Some Go.WriteError)
      (with_trace (trace w ++ [Wrote (pending w)])
         (with_fileRoot
            {| on_disk := true; failing := Some k; closed := false;
               contents := contents (fileRoot w) ++ firstn k (pending w) |} w)).
Proof.
  intros Hp Hr Hd Hc Hf. unfold save, bind, get, ret, fileExists.
  destruct (Z.eqb_spec (position w) 0) as [E|_]; [contradiction|].
  rewrite Hd, slice_upto_in_range by exact Hr.
  unfold fileRoot_Write, File_Write. rewrite Hc, Hf. simpl.
  fold (pending w). rewrite ?Hd, ?Hc, ?Hf. reflexivity.
Qed.

(** A flush with the cursor outside the buffer. *)
Lemma save_out_of_range (w : Worker) :
  position w <> 0 ->
  on_disk (fileRoot w) = true ->
  position w < 0 \/ Go.len (buffer w) < position w ->
  save w = Panics w.
Proof.
  intros Hp Hd Hr. unfold save, bind, get, ret, fileExists.
  destruct (Z.eqb_spec (position w) 0) as [E|_]; [contradiction|].
  rewrite Hd, slice_upto_out_of_range by exact Hr. reflexivity.
Qed.

(** C10. With nothing buffered a flush returns zero bytes and no error and
    leaves the worker as it was: nothing is written, the callback does not
    run; a timer tick on a free mutex does the same. *)
Theorem save_with_empty_buffer (w : Worker) :
  position w = 0 ->
  save w = Returns (0, None) w /\
  (lock w = false -> doTimerJob_tick w = Returns tt w).
Proof.
  intros Hp. split; [now apply save_empty|].
  intros Hl. unfold doTimerJob_tick, bind, Lock. rewrite Hl.
  rewrite save_empty by exact Hp. unfold ret, Unlock, modify.
  destruct w; simpl in *; subst; reflexivity.
Qed.

(** C6. A flush of a non-empty buffer whose file is not on the disk writes
    nothing, runs the callback exactly once, reports zero bytes and no
    error, and keeps cursor, buffer and file as they were. *)
Theorem save_with_file_missing (w : Worker) :
  0 < position w ->
  on_disk (fileRoot w) = false ->
  let w' := with_trace (trace w ++ [Called]) w in
  save w = Returns (0, None) w' /\
  position w' = position w /\
  buffer w' = buffer w /\
  fileRoot w' = fileRoot w /\
  writes w' = writes w /\
  calls w' = S (calls w).
Proof.
  intros Hp Hd w'. split; [apply save_missing; [lia|exact Hd]|].
  subst w'. unfold writes, calls. simpl.
  rewrite !filter_app, !length_app. simpl. repeat split; lia.
Qed.

End SaveProperties.

(* ================================================================= *)
(** ** The worker: appending *)

Section WriteProperties.
Context {rt : Runtime}.

Import logWriter.
Local Open Scope go_scope.

Lemma int_add_exact (x y : Z) :
  - 2 ^ 63 <= x + y < 2 ^ 63 -> Go.int_add x y = x + y.
Proof.
  intros H. unfold Go.int_add, Go.int_wrap.
  rewrite Z.mod_small by lia. lia.
Qed.

Lemma capacity_value : capacity = 32768.
Proof. reflexivity. Qed.

Lemma len_nonneg {A : Type} (s : list A) : 0 <= Go.len s.
Proof. unfold Go.len. lia. Qed.

Lemma copy_fits {A : Type} (dst src : list A) :
  (List.length src <= List.length dst)%nat ->
  Go.copy dst src = src ++ skipn (List.length src) dst.
Proof.
  intros H. unfold Go.copy. now rewrite firstn_all2 by exact H.
Qed.

Lemma length_copy {A : Type} (dst src : list A) :
  List.length (Go.copy dst src) = List.length dst.
Proof.
  unfold Go.copy. rewrite length_app, length_firstn, length_skipn. lia.
Qed.

Lemma Write_copy_in_range (data : list byte) (r : Z * option Go.error) (w : Worker) :
  0 <= position w <= Go.len (buffer w) ->
  Write_copy data r w = Returns r (with_lock false (put data w)).
Proof.
  intros H. unfold Write_copy, bind, get.
  rewrite slice_from_in_range by exact H. reflexivity.
Qed.

Lemma Write_copy_out_of_range (data : list byte) (r : Z * option Go.error) (w : Worker) :
  position w < 0 \/ Go.len (buffer w) < position w ->
  Write_copy data r w = Panics w.
Proof.
  intros H. unfold Write_copy, bind, get.
  rewrite slice_from_out_of_range by exact H. reflexivity.
Qed.

(** The buffer keeps its size under [put]. *)
Lemma len_buffer_put (data : list byte) (w : Worker) :
  0 <= position w <= Go.len (buffer w) ->
  Go.len (buffer (put data w)) = Go.len (buffer w).
Proof.
  intros H. unfold put, Go.len in *. simpl.
  rewrite length_app, length_firstn, length_copy, length_skipn. lia.
Qed.

(** With room for the data, [put] appends it to what is pending. *)
Lemma pending_put (data : list byte) (w : Worker) :
  0 <= position w ->
  position w + Go.len data <= Go.len (buffer w) ->
  Go.len (buffer w) < 2 ^ 63 ->
  position (put data w) = position w + Go.len data /\
  pending (put data w) = pending w ++ data.
Proof.
  intros H0 H1 H2. pose proof (len_nonneg data) as Hd.
  assert (Hp : position (put data w) = position w + Go.len data).
  { unfold put. simpl. apply int_add_exact. lia. }
  split; [exact Hp|].
  unfold pending at 1. rewrite Hp. unfold put. simpl. fold (pending w).
  unfold Go.len in *.
  rewrite copy_fits by (rewrite length_skipn; lia).
  assert (Hl : List.length (pending w) = Z.to_nat (position w)).
  { unfold pending. rewrite length_firstn. lia. }
  rewrite app_assoc, firstn_app.
  rewrite length_app, Hl.
  replace (Z.to_nat (position w + Z.of_nat (List.length data))
           - (Z.to_nat (position w) + List.length data))%nat with O by lia.
  rewrite firstn_O, app_nil_r.
  apply firstn_all2. rewrite length_app, Hl. lia.
Qed.

Lemma Write_on_held_mutex (data : list byte) (w : Worker) :
  lock w = true -> Write data w = Parks w.
Proof.
  intros H. unfold Write, bind, Lock. now rewrite H.
Qed.

Lemma gtb_true (x y : Z) : y < x -> (x >? y) = true.
Proof. intros H. rewrite Z.gtb_ltb. now apply Z.ltb_lt. Qed.

Lemma gtb_false (x y : Z) : x <= y -> (x >? y) = false.
Proof. intros H. rewrite Z.gtb_ltb. now apply Z.ltb_ge. Qed.

(** No flush is needed: the data goes behind what is pending. *)
Lemma Write_with_room (data : list byte) (w : Worker) :
  lock w = false ->
  0 <= position w <= Go.len (buffer w) ->
  Go.len data + position w <= capacity ->
  Write data w = Returns (0, None) (with_lock false (put data (with_lock true w))).
Proof.
  intros Hl Hr Hc. pose proof capacity_value as Hv. pose proof (len_nonneg data).
  unfold Write, bind, Lock, get. rewrite Hl. simpl.
  rewrite int_add_exact by lia. rewrite gtb_false by exact Hc.
  now rewrite Write_copy_in_range by exact Hr.
Qed.

(** The flush that makes room succeeds: the data starts the buffer anew. *)
Lemma Write_after_flush (data : list byte) (w : Worker) :
  lock w = false ->
  in_bounds w ->
  position w <> 0 ->
  capacity < Go.len data + position w ->
  Go.len data < 2 ^ 62 ->
  healthy (fileRoot w) ->
  Write data w =
    Returns (position w, None)
      (with_lock false
         (put data
            (with_position 0
               (with_trace (trace w ++ [Wrote (pending w)])
                  (with_fileRoot
                     {| on_disk := true; failing := None; closed := false;
                        contents := contents (fileRoot w) ++ pending w |}
                     (with_lock true w)))))).
Proof.
  intros Hl [Hb Hr] Hp Hc Hd Hh. pose proof capacity_value as Hv.
  pose proof (len_nonneg data).
  unfold Write, bind, Lock, get. rewrite Hl. simpl.
  rewrite int_add_exact by lia. rewrite gtb_true by exact Hc.
  rewrite (save_written (with_lock true w)); simpl; try assumption; try lia.
  rewrite Write_copy_in_range by (simpl; lia).
  reflexivity.
Qed.

(** The flush that makes room fails in the write: the error comes back,
    the callback has run, nothing is buffered and the mutex stays held. *)
Lemma Write_after_failed_flush (data : list byte) (w : Worker) (k : nat) :
  lock w = false ->
  in_bounds w ->
  position w <> 0 ->
  capacity < Go.len data + position w ->
  Go.len data < 2 ^ 62 ->
  on_disk (fileRoot w) = true ->
  closed (fileRoot w) = false ->
  failing (fileRoot w) = Some k ->
  Write data w =
    Returns (Go.len (firstn k (pending w)), Some Go.WriteError)
      (with_trace (trace w ++ [Wrote (pending w); Called])
         (with_fileRoot
            {| on_disk := true; failing := Some k; closed := false;
               contents := contents (fileRoot w) ++ firstn k (pending w) |}
            (with_lock true w))).
Proof.
  intros Hl [Hb Hr] Hp Hc Hd Ho Hcl Hf. pose proof capacity_value as Hv.
  pose proof (len_nonneg data).
  unfold Write, bind, Lock, get. rewrite Hl. simpl.
  rewrite int_add_exact by lia. rewrite gtb_true by exact Hc.
  rewrite (save_failed (with_lock true w) (k := k)); simpl; try assumption; try lia.
  unfold errorCallback, modify, ret. simpl.
  rewrite <- app_assoc. reflexivity.
Qed.

(** The flush that makes room finds no file: [save] reports no error, so
    the data is copied behind what is pending, as far as the buffer goes,
    and the cursor moves by the whole length. *)
Lemma Write_after_missing_file (data : list byte) (w : Worker) :
  lock w = false ->
  in_bounds w ->
  position w <> 0 ->
  capacity < Go.len data + position w ->
  Go.len data < 2 ^ 62 ->
  on_disk (fileRoot w) = false ->
  Write data w =
    Returns (0, None)
      (with_lock false
         (put data (with_trace (trace w ++ [Called]) (with_lock true w)))).
Proof.
  intros Hl [Hb Hr] Hp Hc Hd Ho. pose proof capacity_value as Hv.
  pose proof (len_nonneg data).
  unfold Write, bind, Lock, get. rewrite Hl. simpl.
  rewrite int_add_exact by lia. rewrite gtb_true by exact Hc.
  rewrite (save_missing (with_lock true w)); simpl; try assumption.
  rewrite Write_copy_in_range by (simpl; lia).
  reflexivity.
Qed.

(** Data longer than the buffer, nothing pending: [save] has nothing to
    do, the copy stops at the end of the buffer and the cursor moves by
    the whole length. *)
Lemma Write_longer_than_buffer (data : list byte) (w : Worker) :
  lock w = false ->
  Go.len (buffer w) = capacity ->
  position w = 0 ->
  capacity < Go.len data ->
  Go.len data < 2 ^ 62 ->
  Write data w = Returns (0, None) (with_lock false (put data (with_lock true w))).
Proof.
  intros Hl Hb Hp Hc Hd. pose proof capacity_value as Hv.
  unfold Write, bind, Lock, get. rewrite Hl. simpl.
  rewrite int_add_exact by lia. rewrite gtb_true by lia.
  rewrite (save_empty (with_lock true w)) by exact Hp.
  rewrite Write_copy_in_range by (simpl; lia).
  reflexivity.
Qed.

Lemma calls_app (w : Worker) (es : list event) :
  calls (with_trace (trace w ++ es) w) =
  (calls w + List.length (filter (fun e => match e with Called => true | _ => false end) es))%nat.
Proof.
  unfold calls. simpl. now rewrite filter_app, length_app.
Qed.

(** An append of at most [capacity] bytes to a worker in bounds, its mutex
    free and its file in good order, returns without error and loses
    nothing: file and buffer together hold what they held before, followed
    by the data.  The worker stays in bounds with its mutex free, the
    callback does not run, and the count returned is the number of bytes
    the flush wrote, zero without a flush. *)
Lemma Write_fitting (data : list byte) (w : Worker) :
  lock w = false ->
  in_bounds w ->
  healthy (fileRoot w) ->
  Go.len data <= capacity ->
  exists n w',
    Write data w = Returns (n, None) w' /\
    (n = 0 \/ n = position w) /\
    lock w' = false /\
    in_bounds w' /\
    healthy (fileRoot w') /\
    stream w' = stream w ++ data /\
    same_setup w w' /\
    calls w' = calls w.
Proof.
  intros Hl Hb Hh Hd. pose proof capacity_value as Hv.
  pose proof (len_nonneg data) as Hn. destruct Hb as [Hb Hr].
  destruct (Z_le_gt_dec (Go.len data + position w) capacity) as [Hroom|Hfull].
  - exists 0, (with_lock false (put data (with_lock true w))).
    destruct (pending_put data (with_lock true w)) as [Hp Hq]; simpl; try lia.
    split; [apply Write_with_room; [assumption|lia|assumption]|].
    split; [now left|]. split; [reflexivity|].
    split.
    { split.
      - change (Go.len (buffer (put data (with_lock true w))) = capacity).
        rewrite len_buffer_put by (simpl; lia). exact Hb.
      - change (0 <= position (put data (with_lock true w)) <= capacity).
        rewrite Hp. simpl. lia. }
    split; [exact Hh|].
    split.
    { unfold stream.
      change (pending (with_lock false (put data (with_lock true w))))
        with (pending (put data (with_lock true w))).
      rewrite Hq. simpl. now rewrite app_assoc. }
    split; [repeat split|reflexivity].
  - assert (Hp0 : position w <> 0) by lia.
    set (w2 := with_position 0
                 (with_trace (trace w ++ [Wrote (pending w)])
                    (with_fileRoot
                       {| on_disk := true; failing := None; closed := false;
                          contents := contents (fileRoot w) ++ pending w |}
                       (with_lock true w)))).
    exists (position w), (with_lock false (put data w2)).
    destruct (pending_put data w2) as [Hp Hq]; simpl; try lia.
    split.
    { apply Write_after_flush; try assumption; [split; assumption|lia|lia]. }
    split; [now right|]. split; [reflexivity|].
    split.
    { split.
      - change (Go.len (buffer (put data w2)) = capacity).
        rewrite len_buffer_put by (simpl; lia). exact Hb.
      - change (0 <= position (put data w2) <= capacity).
        rewrite Hp. simpl. lia. }
    split; [repeat split|].
    split.
    { unfold stream.
      change (pending (with_lock false (put data w2))) with (pending (put data w2)).
      rewrite Hq. simpl. reflexivity. }
    split; [repeat split|].
    change (calls (with_lock false (put data w2)))
      with (calls (with_trace (trace w ++ [Wrote (pending w)]) w)).
    rewrite calls_app. simpl. lia.
Qed.


End WriteProperties.

(* ================================================================= *)
(** ** The worker: rendering entries, draining the queue, closing *)

Section CloseProperties.
Context {rt : Runtime}.

Import logWriter.
Local Open Scope go_scope.

Lemma same_setup_fixed (w w' : Worker) : same_setup w w' -> same_fixed w w'.
Proof. unfold same_setup, same_fixed. intuition. Qed.

Lemma same_fixed_trans (a b c : Worker) :
  same_fixed a b -> same_fixed b c -> same_fixed a c.
Proof. unfold same_fixed. intuition congruence. Qed.

Lemma rendered_same_fixed (w w' : Worker) (n : nat) (event : Entry) :
  same_fixed w w' -> rendered w' n event = rendered w n event.
Proof.
  intros (_ & Hi & Hw & He & Hd & _). unfold rendered, call_site.
  now rewrite Hi, Hw, He, Hd.
Qed.

Lemma rendered_all_same_fixed (w w' : Worker) (queue : list Entry) :
  same_fixed w w' -> forall n, rendered_all w' n queue = rendered_all w n queue.
Proof.
  intros H. induction queue as [|event rest IH]; intros n; simpl; [reflexivity|].
  rewrite (rendered_same_fixed n event H).
  destruct (rendered w n event); now rewrite IH.
Qed.

(** [writeToBuffer] reads the clock once and calls [Write] once with the
    rendered line; an entry whose level is none of the four is dropped. *)
Lemma writeToBuffer_rendered (event : Entry) (w : Worker) :
  writeToBuffer event w =
    match rendered w (reads w) event with
    | None => Returns tt w
    | Some b => (Write b ;; ret tt) (with_reads (S (reads w)) w)
    end.
Proof.
  unfold writeToBuffer, rendered, call_site, printed, bind, get.
  destruct (level event =? WarnLevel);
    [|destruct (level event =? InfoLevel);
      [|destruct (level event =? DebugLevel);
        [|destruct (level event =? ErrorLevel); [|reflexivity]]]];
    destruct (Go.strlen (format event) >? 0);
    unfold Printf, Println, Output, bind, get, modify, ret; simpl;
    match goal with |- context [Write ?b ?s] => destruct (Write b s) as [[n e] s'|s'|s'] end;
    reflexivity.
Qed.

(** A flush on a worker in bounds whose file is in good order. *)
Lemma save_healthy (w : Worker) :
  in_bounds w ->
  healthy (fileRoot w) ->
  exists w',
    save w = Returns (position w, None) w' /\
    position w' = 0 /\
    buffer w' = buffer w /\
    contents (fileRoot w') = stream w /\
    healthy (fileRoot w') /\
    lock w' = lock w /\
    same_setup w w' /\
    calls w' = calls w.
Proof.
  intros [Hb Hr] Hh. destruct (Z.eq_dec (position w) 0) as [E|E].
  - exists w. rewrite save_empty by exact E. rewrite E.
    unfold stream, pending. rewrite E. simpl. rewrite app_nil_r.
    repeat split; try reflexivity; apply Hh.
  - eexists. rewrite save_written; try assumption; [|lia].
    split; [reflexivity|]. simpl.
    repeat split.
    change (calls (with_trace (trace w ++ [Wrote (pending w)]) w) = calls w).
    rewrite calls_app. simpl. lia.
Qed.

(** Rendering an entry that fits the buffer appends its line to the
    stream and reads the clock once. *)
Lemma writeToBuffer_keeps_stream (event : Entry) (w : Worker) (b : list byte) :
  lock w = false ->
  in_bounds w ->
  healthy (fileRoot w) ->
  rendered w (reads w) event = Some b ->
  Go.len b <= capacity ->
  exists w',
    writeToBuffer event w = Returns tt w' /\
    lock w' = false /\
    in_bounds w' /\
    healthy (fileRoot w') /\
    stream w' = stream w ++ b /\
    same_fixed w w' /\
    channel w' = channel w /\
    reads w' = S (reads w) /\
    calls w' = calls w.
Proof.
  intros Hl Hb Hh Hr Hf. rewrite writeToBuffer_rendered, Hr.
  destruct (@Write_fitting rt b (with_reads (S (reads w)) w))
    as (n & w' & Hw & _ & Hl' & Hb' & Hh' & Hs & Hsame & Hc); try assumption.
  exists w'. unfold bind. rewrite Hw. unfold ret.
  split; [reflexivity|]. split; [exact Hl'|]. split; [exact Hb'|].
  split; [exact Hh'|]. split; [exact Hs|].
  split; [apply same_setup_fixed in Hsame; exact Hsame|].
  destruct Hsame as (_ & _ & _ & _ & _ & Hch & _ & _ & _ & Hrd).
  split; [exact Hch|]. split; [exact Hrd|exact Hc].
Qed.

Lemma all_fit_tail (w : Worker) (event : Entry) (rest : list Entry) :
  all_fit w (event :: rest) -> all_fit w rest.
Proof.
  intros H e n b Hin. apply H. now right.
Qed.

Lemma all_fit_same_fixed (w w' : Worker) (queue : list Entry) :
  same_fixed w w' -> all_fit w queue -> all_fit w' queue.
Proof.
  intros Hs H e n b Hin Hr. rewrite (rendered_same_fixed n e Hs) in Hr.
  exact (H e n b Hin Hr).
Qed.

(** The loop of [CloseWorker] over a queue whose entries all fit: every
    entry is taken off the queue in order, and its line joins the stream. *)
Lemma drain_keeps_stream (queue : list Entry) :
  forall (w : Worker) (rest : list Entry),
    channel w = queue ++ rest ->
    lock w = false ->
    in_bounds w ->
    healthy (fileRoot w) ->
    all_fit w queue ->
    exists w',
      drain (List.length queue) w = Returns tt w' /\
      channel w' = rest /\
      lock w' = false /\
      in_bounds w' /\
      healthy (fileRoot w') /\
      stream w' = stream w ++ rendered_all w (reads w) queue /\
      same_fixed w w' /\
      calls w' = calls w.
Proof.
  induction queue as [|event queue IH]; intros w rest Hch Hl Hb Hh Hfit.
  - exists w. simpl. unfold ret. rewrite app_nil_r.
    split; [reflexivity|]. split; [exact Hch|]. split; [exact Hl|].
    split; [exact Hb|]. split; [exact Hh|]. split; [reflexivity|].
    split; [repeat split|reflexivity].
  - simpl. unfold bind at 1. unfold receive. rewrite Hch. simpl.
    set (w1 := with_channel (queue ++ rest) w).
    assert (Hfix1 : same_fixed w w1) by (repeat split).
    unfold bind at 1.
    destruct (rendered w (reads w) event) as [b|] eqn:Hr.
    + destruct (@writeToBuffer_keeps_stream event w1 b)
        as (w2 & Hw & Hl2 & Hb2 & Hh2 & Hs2 & Hfix2 & Hch2 & Hrd2 & Hc2);
        try assumption.
      { apply (Hfit event (reads w) b); [now left|exact Hr]. }
      rewrite Hw.
      assert (Hfix : same_fixed w w2) by exact (same_fixed_trans Hfix1 Hfix2).
      destruct (IH w2 rest) as (w3 & Hd & Hch3 & Hl3 & Hb3 & Hh3 & Hs3 & Hfix3 & Hc3);
        try assumption.
      { apply (all_fit_same_fixed Hfix). eapply all_fit_tail; eassumption. }
      exists w3. split; [exact Hd|]. split; [exact Hch3|].
      split; [exact Hl3|]. split; [exact Hb3|]. split; [exact Hh3|].
      split.
      { rewrite Hs3, Hs2, Hrd2. rewrite (rendered_all_same_fixed queue Hfix).
        change (stream w1) with (stream w). change (reads w1) with (reads w).
        now rewrite <- app_assoc. }
      split; [exact (same_fixed_trans Hfix Hfix3)|].
      rewrite Hc3, Hc2. reflexivity.
    + rewrite writeToBuffer_rendered.
      rewrite (rendered_same_fixed _ event Hfix1). change (reads w1) with (reads w).
      rewrite Hr.
      destruct (IH w1 rest) as (w3 & Hd & Hch3 & Hl3 & Hb3 & Hh3 & Hs3 & Hfix3 & Hc3);
        try assumption; try reflexivity.
      { apply (all_fit_same_fixed Hfix1). eapply all_fit_tail; eassumption. }
      exists w3. split; [exact Hd|]. split; [exact Hch3|].
      split; [exact Hl3|]. split; [exact Hb3|]. split; [exact Hh3|].
      split.
      { rewrite Hs3. rewrite (rendered_all_same_fixed queue Hfix1). reflexivity. }
      split; [exact (same_fixed_trans Hfix1 Hfix3)|exact Hc3].
Qed.

Lemma bind_returns {S A B : Type} (m : M S A) (k : A -> M S B) (s s' : S) (a : A) :
  m s = Returns a s' -> bind m k s = k a s'.
Proof. intros H. unfold bind. now rewrite H. Qed.

(** The flush that [CloseWorker] and the timer make under the mutex. *)
Lemma locked_save_healthy {B : Type} (k : M Worker B) (w : Worker) :
  lock w = false ->
  in_bounds w ->
  healthy (fileRoot w) ->
  exists w',
    (Lock ;; save ;; Unlock ;; k) w = k w' /\
    position w' = 0 /\
    buffer w' = buffer w /\
    contents (fileRoot w') = stream w /\
    healthy (fileRoot w') /\
    lock w' = false /\
    same_setup w w' /\
    calls w' = calls w.
Proof.
  intros Hl Hb Hh.
  destruct (@save_healthy (with_lock true w)) as
    (w' & Hs & Hp & Hbuf & Hc & Hh' & _ & Hsame & Hcalls); try assumption.
  exists (with_lock false w').
  split.
  { unfold bind at 1, Lock. rewrite Hl.
    rewrite (@bind_returns _ _ _ _ _ _ _ _ Hs). unfold bind, Unlock, modify. reflexivity. }
  repeat split; try assumption; try apply Hh'; try apply Hsame.
Qed.

(** The first call of [CloseWorker] on a worker in good order, step by
    step: flush, drain, flush. *)
Lemma CloseWorker_drains (w : Worker) :
  once w = false ->
  done w = false ->
  quitTimer w = false ->
  lock w = false ->
  in_bounds w ->
  healthy (fileRoot w) ->
  all_fit w (channel w) ->
  exists w',
    CloseWorker w = Returns tt w' /\
    position w' = 0 /\
    channel w' = [] /\
    contents (fileRoot w') =
      contents (fileRoot w) ++ pending w ++ rendered_all w (reads w) (channel w) /\
    once w' = true /\ done w' = true /\ quitTimer w' = true /\
    lock w' = false /\
    calls w' = calls w /\
    in_bounds w' /\
    healthy (fileRoot w') /\
    same_handles w w'.
Proof.
  intros Ho Hd Hq Hl Hb Hh Hfit.
  set (w1 := with_quitTimer true (with_done true (with_once true w))).
  assert (Hfix1 : Info w1 = Info w /\ Warning w1 = Warning w /\
                  Error w1 = Error w /\ Debug w1 = Debug w) by (repeat split).
  unfold CloseWorker. unfold bind at 1. unfold get at 1. rewrite Ho.
  unfold bind at 1, modify. unfold bind at 1, close_done. simpl. rewrite Hd.
  unfold bind at 1, close_quitTimer. simpl. rewrite Hq. fold w1.
  destruct (@locked_save_healthy unit
              (w' <- get ;; drain (List.length (channel w')) ;; Lock ;; save ;; Unlock)
              w1) as (w2 & E2 & Hp2 & Hbuf2 & Hc2 & Hh2 & Hl2 & Hsame2 & Hcalls2);
    try assumption.
  rewrite E2. clear E2.
  unfold bind at 1. unfold get at 1.
  assert (Hfix2 : same_fixed w1 w2) by (apply same_setup_fixed; exact Hsame2).
  assert (Hch2 : channel w2 = channel w) by apply Hsame2.
  assert (Hrd2 : reads w2 = reads w) by apply Hsame2.
  assert (Hb2 : in_bounds w2).
  { destruct Hb as [Hb Hr]. split; [now rewrite Hbuf2|rewrite Hp2]. pose proof capacity_value. lia. }
  assert (Hrend : forall n e, rendered w2 n e = rendered w n e).
  { intros n e. rewrite (rendered_same_fixed n e Hfix2).
    unfold rendered, call_site. reflexivity. }
  assert (Hall : forall n q, rendered_all w2 n q = rendered_all w n q).
  { intros n q. revert n. induction q as [|e q IH]; intros n; simpl; [reflexivity|].
    rewrite Hrend. destruct (rendered w n e); now rewrite IH. }
  destruct (@drain_keeps_stream (channel w2) w2 [])
    as (w3 & E3 & Hch3 & Hl3 & Hb3 & Hh3 & Hs3 & Hfix3 & Hcalls3); try assumption.
  { now rewrite app_nil_r. }
  { intros e n b Hin Hr. rewrite Hrend in Hr. rewrite Hch2 in Hin.
    exact (Hfit e n b Hin Hr). }
  rewrite (@bind_returns _ _ _ _ _ _ _ _ E3).
  destruct (@locked_save_healthy unit (ret tt) w3)
    as (w4 & E4 & Hp4 & Hbuf4 & Hc4 & Hh4 & Hl4 & Hsame4 & Hcalls4); try assumption.
  assert (Hhand : same_handles w w4).
  { unfold same_handles, same_setup, same_fixed in *. intuition congruence. }
  assert (Hb4 : in_bounds w4).
  { destruct Hb3 as [Hb3 Hr3]. split; [now rewrite Hbuf4|rewrite Hp4].
    pose proof capacity_value. lia. }
  exists w4. split.
  { transitivity ((Lock ;; save ;; Unlock ;; ret tt) w3); [|exact E4].
    unfold bind. destruct (Lock w3) as [[] s|s|s]; reflexivity. }
  split; [exact Hp4|].
  split; [destruct Hsame4 as (_ & _ & _ & _ & _ & H & _); now rewrite H|].
  split.
  { rewrite Hc4, Hs3. unfold stream at 1.
    assert (Hpend : pending w2 = []) by (unfold pending; now rewrite Hp2).
    rewrite Hpend, app_nil_r, Hc2, Hall, Hrd2, Hch2. unfold stream.
    now rewrite <- app_assoc. }
  destruct Hsame4 as (Ho4 & _ & _ & _ & _ & _ & _ & Hq4 & Hd4 & _).
  destruct Hfix3 as (Ho3 & _ & _ & _ & _ & _ & Hq3 & Hd3).
  destruct Hfix2 as (Ho2 & _ & _ & _ & _ & _ & Hq2 & Hd2).
  split; [now rewrite Ho4, Ho3, Ho2|]. split; [now rewrite Hd4, Hd3, Hd2|].
  split; [now rewrite Hq4, Hq3, Hq2|]. split; [exact Hl4|].
  split; [rewrite Hcalls4, Hcalls3, Hcalls2; reflexivity|].
  split; [exact Hb4|]. split; [exact Hh4|exact Hhand].
Qed.


Lemma append_assoc (a b c : string) : ((a ++ b) ++ c)%string = (a ++ b ++ c)%string.
Proof. induction a as [|x a IH]; simpl; [reflexivity|now rewrite IH]. Qed.

(** Under [defaultLogFlag] a line is: prefix, date, time with
    microseconds, short file name, line number, message, newline. *)
Lemma line_text_default (prefix : string) (t : Time) (file : string) (line : Z) (s : string) :
  log.line_text (log.New prefix defaultLogFlag) t file line s =
    (prefix ++ log.date_text t ++ log.clock_text true t
     ++ log.short file ++ ":" ++ log.itoa line (-1) ++ ": "
     ++ s ++ (if log.ends_in_newline s then "" else log.newline))%string.
Proof.
  unfold log.line_text, log.formatHeader, log.stamp_text, log.place_text.
  change (log.flag (log.New prefix defaultLogFlag)) with 23.
  change (log.prefix (log.New prefix defaultLogFlag)) with prefix.
  change (log.has 23 log.Lmsgprefix) with false.
  change (log.has 23 (Z.lor log.Ldate (Z.lor log.Ltime log.Lmicroseconds))) with true.
  change (log.has 23 log.Ldate) with true.
  change (log.has 23 (Z.lor log.Ltime log.Lmicroseconds)) with true.
  change (log.has 23 log.Lmicroseconds) with true.
  change (log.has 23 (Z.lor log.Lshortfile log.Llongfile)) with true.
  change (log.has 23 log.Lshortfile) with true.
  cbv iota.
  rewrite !append_assoc. reflexivity.
Qed.

(** C8, as the code has it.  For an entry at one of the four levels, on a
    worker with its handles installed, the rendered line is the level's
    prefix, the date, the time with microseconds, the short name of
    writer.go with the line number of the call and a colon, the message
    text, and a newline unless the message ends in one.  When the line
    fits the buffer, these are the bytes that join the stream. *)
Theorem rendered_line_layout (w : Worker) (event : Entry) :
  handles_installed w ->
  In (level event) AllLevels ->
  let t := time_Now (reads w) in
  let line :=
    Go.bytes
      (tag (level event) ++ log.date_text t ++ log.clock_text true t
       ++ log.short caller_file ++ ":" ++ log.itoa (site event) (-1) ++ ": "
       ++ printed event
       ++ (if log.ends_in_newline (printed event) then "" else log.newline))%string in
  rendered w (reads w) event = Some line /\
  (lock w = false -> in_bounds w -> healthy (fileRoot w) -> Go.len line <= capacity ->
   exists w',
     writeToBuffer event w = Returns tt w' /\
     stream w' = stream w ++ line /\
     in_bounds w' /\ lock w' = false).
Proof.
  intros (Hi & Hw & He & Hd) Hl t line.
  assert (Hr : rendered w (reads w) event = Some line).
  { unfold rendered, call_site, line, tag, site. rewrite Hi, Hw, He, Hd.
    simpl in Hl.
    destruct Hl as [E|[E|[E|[E|[]]]]]; rewrite <- E; simpl;
      destruct (Go.strlen (format event) >? 0);
      now rewrite line_text_default. }
  split; [exact Hr|].
  intros Hlk Hb Hh Hfit.
  destruct (@writeToBuffer_keeps_stream event w line)
    as (w' & Hw' & Hl' & Hb' & _ & Hs' & _); try assumption.
  exists w'. repeat split; try assumption; apply Hb'.
Qed.

End CloseProperties.

(* ================================================================= *)
(** ** The worker: when the file gives trouble *)

Section FailureProperties.
Context {rt : Runtime}.

Import logWriter.
Local Open Scope go_scope.

Lemma calls_snoc_Called (t : list event) :
  List.length (filter (fun e => match e with Called => true | _ => false end) (t ++ [Called]))
  = S (List.length (filter (fun e => match e with Called => true | _ => false end) t)).
Proof. rewrite filter_app, length_app. simpl. lia. Qed.

Lemma calls_snoc_Wrote (t : list event) (b : list byte) :
  List.length (filter (fun e => match e with Called => true | _ => false end) (t ++ [Wrote b]))
  = List.length (filter (fun e => match e with Called => true | _ => false end) t).
Proof. rewrite filter_app, length_app. simpl. lia. Qed.

(** An append whose flush fails in the write returns the error of the
    write with the mutex still held: the callback has run once, cursor and
    buffer are as before and the data is not buffered; from then on every
    append and every timer tick waits on the mutex for ever, and so does
    [CloseWorker]. *)
Theorem Write_failed_flush_holds_mutex (data : list byte) (w : Worker) (k : nat) :
  lock w = false ->
  in_bounds w ->
  position w <> 0 ->
  capacity < Go.len data + position w ->
  Go.len data < 2 ^ 62 ->
  on_disk (fileRoot w) = true ->
  closed (fileRoot w) = false ->
  failing (fileRoot w) = Some k ->
  let r := Write data w in
  returned r = Some (Go.len (firstn k (pending w)), Some Go.WriteError) /\
  position (final r) = position w /\
  buffer (final r) = buffer w /\
  calls (final r) = S (calls w) /\
  lock (final r) = true /\
  (forall more, Write more (final r) = Parks (final r)) /\
  doTimerJob_tick (final r) = Parks (final r) /\
  (once w = false -> done w = false -> quitTimer w = false ->
   parked (CloseWorker (final r)) = true).
Proof.
  intros Hl Hb Hp Hc Hd Ho Hcl Hf r. subst r.
  rewrite (@Write_after_failed_flush rt data w k) by assumption.
  simpl.
  split; [reflexivity|]. split; [reflexivity|]. split; [reflexivity|].
  split.
  { unfold calls. simpl.
    change (trace w ++ [Wrote (pending w); Called])
      with (trace w ++ [Wrote (pending w)] ++ [Called]).
    rewrite app_assoc, calls_snoc_Called, calls_snoc_Wrote. reflexivity. }
  split; [reflexivity|].
  split; [intros more; apply Write_on_held_mutex; reflexivity|].
  split; [reflexivity|].
  intros Ho' Hd' Hq'.
  unfold CloseWorker, bind, get, modify, close_done, close_quitTimer, Lock.
  simpl. rewrite Ho'. simpl. rewrite Hd'. simpl. rewrite Hq'. reflexivity.
Qed.

(** A flush whose write stores [k] bytes and then fails keeps the whole
    buffer; once the file takes writes again the next flush writes the
    whole buffer, so the [k] bytes stand twice in the file. *)
Theorem retry_after_partial_write_duplicates (w : Worker) (k : nat) :
  position w <> 0 ->
  in_bounds w ->
  on_disk (fileRoot w) = true ->
  closed (fileRoot w) = false ->
  failing (fileRoot w) = Some k ->
  let r := run [DoSave; Mend; DoSave] w in
  returned r = Some tt /\
  position (final r) = 0 /\
  contents (fileRoot (final r)) =
    contents (fileRoot w) ++ firstn k (pending w) ++ pending w /\
  calls (final r) = calls w.
Proof.
  intros Hp [Hb Hr] Ho Hcl Hf r. subst r.
  pose proof capacity_value as Hv.
  unfold run, perform, bind.
  rewrite (@save_failed rt w k) by (try assumption; lia).
  unfold ret, modify.
  match goal with |- context [save ?s] => set (w2 := s) end.
  rewrite (@save_written rt w2);
    [| exact Hp | simpl; lia | repeat split ].
  simpl.
  split; [reflexivity|]. split; [reflexivity|].
  split; [now rewrite <- app_assoc|].
  unfold calls. simpl. now rewrite !calls_snoc_Wrote.
Qed.

(** A flush through a closed handle. *)
Lemma save_closed (w : Worker) :
  position w <> 0 ->
  0 <= position w <= Go.len (buffer w) ->
  on_disk (fileRoot w) = true ->
  closed (fileRoot w) = true ->
  save w =
    Returns (0, Some Go.ClosedError)
      (with_trace (trace w ++ [Wrote (pending w)]) (with_fileRoot (fileRoot w) w)).
Proof.
  intros Hp Hr Hd Hc. unfold save, bind, get, ret, fileExists.
  destruct (Z.eqb_spec (position w) 0) as [E|_]; [contradiction|].
  rewrite Hd, slice_upto_in_range by exact Hr.
  unfold fileRoot_Write, File_Write. rewrite Hc. reflexivity.
Qed.

(** The tick in terms of the flush it makes. *)
Lemma tick_after_save (w w' : Worker) (n : Z) (err : option Go.error) :
  lock w = false ->
  save (with_lock true w) = Returns (n, err) w' ->
  doTimerJob_tick w =
    Returns tt
      (with_lock false
         match err with
         | Some _ => with_trace (trace w' ++ [Called]) w'
         | None => w'
         end).
Proof.
  intros Hl Hs. unfold doTimerJob_tick, bind, Lock. rewrite Hl, Hs.
  destruct err; reflexivity.
Qed.

(** A timer tick on a free mutex with bytes pending always returns with
    the mutex free and the buffer as it was.  On a file in good order the
    pending bytes go to the file and the callback does not run; on any
    other file (gone from the disk, closed, or failing its writes) the
    callback runs exactly once and the cursor stays. *)
Theorem tick_runs_callback_iff_unhealthy (w : Worker) :
  lock w = false ->
  in_bounds w ->
  position w <> 0 ->
  let r := doTimerJob_tick w in
  returned r = Some tt /\
  lock (final r) = false /\
  buffer (final r) = buffer w /\
  (healthy (fileRoot w) ->
   calls (final r) = calls w /\ position (final r) = 0 /\
   contents (fileRoot (final r)) = stream w) /\
  (~ healthy (fileRoot w) ->
   calls (final r) = S (calls w) /\ position (final r) = position w).
Proof.
  intros Hl [Hb Hr] Hp r. subst r. pose proof capacity_value as Hv.
  assert (Hr' : 0 <= position (with_lock true w) <= Go.len (buffer (with_lock true w)))
    by (simpl; lia).
  destruct (on_disk (fileRoot w)) eqn:Ho;
    [destruct (closed (fileRoot w)) eqn:Hc;
     [|destruct (failing (fileRoot w)) as [j|] eqn:Hf]|].
  - rewrite (@tick_after_save w _ _ _ Hl (@save_closed (with_lock true w) Hp Hr' Ho Hc)). simpl.
    split; [reflexivity|]. split; [reflexivity|]. split; [reflexivity|].
    split; [intros (_ & _ & H); congruence|].
    intros _. split; [|reflexivity].
    unfold calls. simpl. now rewrite calls_snoc_Called, calls_snoc_Wrote.
  - rewrite (@tick_after_save w _ _ _ Hl (@save_failed rt (with_lock true w) j Hp Hr' Ho Hc Hf)). simpl.
    split; [reflexivity|]. split; [reflexivity|]. split; [reflexivity|].
    split; [intros (_ & H & _); congruence|].
    intros _. split; [|reflexivity].
    unfold calls. simpl. now rewrite calls_snoc_Called, calls_snoc_Wrote.
  - assert (Hh : healthy (fileRoot (with_lock true w))) by (repeat split; assumption).
    rewrite (@tick_after_save w _ _ _ Hl (@save_written rt (with_lock true w) Hp Hr' Hh)). simpl.
    split; [reflexivity|]. split; [reflexivity|]. split; [reflexivity|].
    split.
    + intros _. split; [|split; reflexivity].
      unfold calls. simpl. now rewrite calls_snoc_Wrote.
    + intros H. exfalso. apply H. exact Hh.
  - rewrite (@tick_after_save w _ _ _ Hl (@save_missing rt (with_lock true w) Hp Ho)). simpl.
    split; [reflexivity|]. split; [reflexivity|]. split; [reflexivity|].
    split; [intros (H & _); congruence|].
    intros _. split; [|reflexivity].
    unfold calls. simpl. now rewrite calls_snoc_Called.
Qed.

(** An entry whose level is none of the four is rendered by no handle:
    [writeToBuffer] returns at once, the clock is not read and nothing is
    buffered; the loop of [Work] takes such an entry off the queue and it
    is gone. *)
Theorem writeToBuffer_drops_unknown_level (event : Entry) (w : Worker) (rest : list Entry) :
  ~ In (level event) AllLevels ->
  writeToBuffer event w = Returns tt w /\
  (done w = false -> channel w = event :: rest ->
   Work_step w = Returns true (with_channel rest w)).
Proof.
  intros Hn.
  assert (E : forall s, writeToBuffer event s = Returns tt s).
  { intros s. unfold writeToBuffer, bind, get.
    destruct (Z.eqb_spec (level event) WarnLevel) as [H|_];
      [exfalso; apply Hn; rewrite H; simpl; auto|].
    destruct (Z.eqb_spec (level event) InfoLevel) as [H|_];
      [exfalso; apply Hn; rewrite H; simpl; auto|].
    destruct (Z.eqb_spec (level event) DebugLevel) as [H|_];
      [exfalso; apply Hn; rewrite H; simpl; auto|].
    destruct (Z.eqb_spec (level event) ErrorLevel) as [H|_];
      [exfalso; apply Hn; rewrite H; simpl; auto|].
    reflexivity. }
  split; [apply E|].
  intros Hd Hch. unfold Work_step, bind, get. rewrite Hd.
  unfold receive. rewrite Hch. rewrite E. reflexivity.
Qed.

(** One turn of the loop of [Work].  With [done] closed it returns without
    touching the queue.  Otherwise it takes the oldest entry off the queue,
    reads the clock once and appends the entry's line to the stream, the
    worker staying in bounds with its mutex free. *)
Theorem Work_step_takes_oldest
  (w : Worker) (event : Entry) (rest : list Entry) (b : list byte) :
  channel w = event :: rest ->
  lock w = false ->
  in_bounds w ->
  healthy (fileRoot w) ->
  rendered w (reads w) event = Some b ->
  Go.len b <= capacity ->
  (done w = true -> Work_step w = Returns false w) /\
  (done w = false ->
   let r := Work_step w in
   returned r = Some true /\
   channel (final r) = rest /\
   stream (final r) = stream w ++ b /\
   in_bounds (final r) /\
   lock (final r) = false /\
   reads (final r) = S (reads w) /\
   calls (final r) = calls w).
Proof.
  intros Hch Hl Hb Hh Hr Hf. split.
  - intros Hd. unfold Work_step, bind, get. now rewrite Hd.
  - intros Hd r. subst r. unfold Work_step, bind, get. rewrite Hd.
    unfold receive. rewrite Hch.
    destruct (@writeToBuffer_keeps_stream rt event (with_channel rest w) b)
      as (w' & E & Hl' & Hb' & Hh' & Hs & _ & Hch' & Hrd & Hc); try assumption.
    rewrite E. simpl.
    repeat match goal with |- _ /\ _ => split end;
      first [reflexivity | assumption].
Qed.

End FailureProperties.

(* ================================================================= *)
(** ** The worker: runs that stay in good order *)

Section RunProperties.
Context {rt : Runtime}.

Import logWriter.
Local Open Scope go_scope.

Lemma same_handles_refl (w : Worker) : same_handles w w.
Proof. repeat split. Qed.

Lemma same_handles_trans (a b c : Worker) :
  same_handles a b -> same_handles b c -> same_handles a c.
Proof. unfold same_handles. intuition congruence. Qed.

Lemma same_fixed_handles (w w' : Worker) : same_fixed w w' -> same_handles w w'.
Proof. unfold same_fixed, same_handles. intuition. Qed.

Lemma rendered_same_handles (w w' : Worker) (n : nat) (event : Entry) :
  same_handles w w' -> rendered w' n event = rendered w n event.
Proof.
  intros (Hi & Hw & He & Hd). unfold rendered, call_site.
  now rewrite Hi, Hw, He, Hd.
Qed.

Lemma all_fit_same_handles (w w' : Worker) (queue : list Entry) :
  same_handles w w' -> all_fit w queue -> all_fit w' queue.
Proof.
  intros Hs H e n b Hin Hr. rewrite (rendered_same_handles n e Hs) in Hr.
  exact (H e n b Hin Hr).
Qed.

Lemma all_fit_app (w : Worker) (q1 q2 : list Entry) :
  all_fit w q1 -> all_fit w q2 -> all_fit w (q1 ++ q2).
Proof.
  intros H1 H2 e n b Hin Hr. apply in_app_or in Hin.
  destruct Hin as [Hin|Hin]; [exact (H1 e n b Hin Hr)|exact (H2 e n b Hin Hr)].
Qed.

Lemma gentle_same_handles (w w' : Worker) (s : step) :
  same_handles w w' -> gentle w s -> gentle w' s.
Proof.
  intros Hs. destruct s; simpl; try exact (fun H => H);
    apply all_fit_same_handles; exact Hs.
Qed.

Lemma Forall_prefix {A : Type} (P : A -> Prop) (l : list A) (k : nat) :
  Forall P l -> Forall P (firstn k l).
Proof.
  intros H. revert k. induction H as [|x l Hx Hl IH]; intros [|k]; simpl;
    constructor; auto.
Qed.

(** A worker in good order stays so when handles, latches and queue are
    kept and mutex, cursor and file are in order again. *)
Lemma ready_carried (w w' : Worker) :
  ready w ->
  same_fixed w w' ->
  channel w' = channel w ->
  lock w' = false ->
  in_bounds w' ->
  healthy (fileRoot w') ->
  ready w'.
Proof.
  intros (_ & _ & _ & Hfit & Hlatch) Hs Hch Hl Hb Hh.
  split; [exact Hl|]. split; [exact Hb|]. split; [exact Hh|].
  split.
  - rewrite Hch. exact (all_fit_same_handles (same_fixed_handles Hs) Hfit).
  - destruct Hs as (Ho & _ & _ & _ & _ & _ & Hq & Hd).
    rewrite Ho, Hq, Hd. exact Hlatch.
Qed.

(** Rendering an entry whose line fits, on a worker in good order. *)
Lemma writeToBuffer_ready (event : Entry) (w : Worker) :
  lock w = false ->
  in_bounds w ->
  healthy (fileRoot w) ->
  all_fit w [event] ->
  exists w',
    writeToBuffer event w = Returns tt w' /\
    lock w' = false /\
    in_bounds w' /\
    healthy (fileRoot w') /\
    same_fixed w w' /\
    channel w' = channel w /\
    calls w' = calls w.
Proof.
  intros Hl Hb Hh Hfit.
  destruct (rendered w (reads w) event) as [b|] eqn:Hr.
  - destruct (@writeToBuffer_keeps_stream rt event w b)
      as (w' & E & Hl' & Hb' & Hh' & _ & Hs & Hch & _ & Hc); try assumption.
    { apply (Hfit event (reads w) b); [now left|exact Hr]. }
    exists w'. repeat match goal with |- _ /\ _ => split end; assumption.
  - exists w. rewrite writeToBuffer_rendered, Hr.
    split; [reflexivity|]. split; [exact Hl|]. split; [exact Hb|].
    split; [exact Hh|]. split; [repeat split|]. split; reflexivity.
Qed.

(** Every step that is [gentle] keeps a worker [ready]: it does not
    panic, and the callback does not run. *)
Lemma perform_ready (s : step) (w : Worker) :
  ready w ->
  gentle w s ->
  panicked (perform s w) = false /\
  ready (final (perform s w)) /\
  same_handles w (final (perform s w)) /\
  calls (final (perform s w)) = calls w.
Proof.
  intros Hready Hg. pose proof Hready as (Hl & Hb & Hh & Hfit & Hlatch).
  destruct s as [data| | |event| | |event| | |k| ]; unfold perform.
  - (* Write *)
    destruct (@Write_fitting rt data w Hl Hb Hh Hg)
      as (n & w' & E & _ & Hl' & Hb' & Hh' & _ & Hsame & Hc).
    unfold bind. rewrite E. simpl.
    pose proof (same_setup_fixed Hsame) as Hfix.
    split; [reflexivity|].
    split; [apply (ready_carried Hready Hfix); try assumption; apply Hsame|].
    split; [exact (same_fixed_handles Hfix)|exact Hc].
  - (* save *)
    destruct (@save_healthy rt w Hb Hh)
      as (w' & E & Hp & Hbuf & _ & Hh' & Hl' & Hsame & Hc).
    unfold bind. rewrite E. simpl.
    pose proof (same_setup_fixed Hsame) as Hfix.
    assert (Hb' : in_bounds w').
    { destruct Hb as [Hb Hr]. split; [now rewrite Hbuf|rewrite Hp].
      pose proof capacity_value. lia. }
    split; [reflexivity|].
    split; [apply (ready_carried Hready Hfix); try assumption;
            [apply Hsame|now rewrite Hl']|].
    split; [exact (same_fixed_handles Hfix)|exact Hc].
  - (* the timer's tick *)
    destruct (@save_healthy rt (with_lock true w) Hb Hh)
      as (w' & E & Hp & Hbuf & _ & Hh' & _ & Hsame & Hc).
    rewrite (@tick_after_save rt w _ _ _ Hl E). simpl.
    assert (Hfix : same_fixed w (with_lock false w')).
    { apply same_setup_fixed in Hsame. exact Hsame. }
    assert (Hb' : in_bounds (with_lock false w')).
    { destruct Hb as [Hb Hr]. split; simpl; [now rewrite Hbuf|rewrite Hp].
      pose proof capacity_value. lia. }
    split; [reflexivity|].
    split; [apply (ready_carried Hready Hfix); try assumption;
            [apply Hsame|reflexivity]|].
    split; [exact (same_fixed_handles Hfix)|exact Hc].
  - (* writeToBuffer *)
    destruct (@writeToBuffer_ready event w Hl Hb Hh Hg)
      as (w' & E & Hl' & Hb' & Hh' & Hfix & Hch & Hc).
    rewrite E. simpl.
    split; [reflexivity|].
    split; [exact (ready_carried Hready Hfix Hch Hl' Hb' Hh')|].
    split; [exact (same_fixed_handles Hfix)|exact Hc].
  - (* one turn of Work *)
    unfold Work_step, bind, get.
    destruct (done w) eqn:Hd.
    { simpl. split; [reflexivity|]. split; [exact Hready|].
      split; [apply same_handles_refl|reflexivity]. }
    unfold receive. destruct (channel w) as [|event rest] eqn:Hch.
    { simpl. split; [reflexivity|]. split; [exact Hready|].
      split; [apply same_handles_refl|reflexivity]. }
    assert (Hfit1 : all_fit w [event]).
    { intros e n b [<-|[]] Hr. apply (Hfit event n b); [now left|exact Hr]. }
    destruct (@writeToBuffer_ready event (with_channel rest w) Hl Hb Hh Hfit1)
      as (w' & E & Hl' & Hb' & Hh' & Hfix & Hch' & Hc).
    rewrite E. simpl.
    split; [reflexivity|].
    split.
    { split; [exact Hl'|]. split; [exact Hb'|]. split; [exact Hh'|].
      split.
      - rewrite Hch'. simpl.
        apply (all_fit_same_handles (same_fixed_handles Hfix)).
        intros e n b Hin Hr. apply (Hfit e n b); [now right|exact Hr].
      - destruct Hfix as (Ho & _ & _ & _ & _ & _ & Hq & Hd').
        rewrite Ho, Hq, Hd'. simpl. intros H.
        split; [exact Hd|apply (Hlatch H)]. }
    split; [exact (same_fixed_handles Hfix)|exact Hc].
  - (* CloseWorker *)
    destruct (once w) eqn:Ho.
    { assert (E : CloseWorker w = Returns tt w)
        by (unfold CloseWorker, bind, get; now rewrite Ho).
      rewrite E. simpl. split; [reflexivity|]. split; [exact Hready|].
      split; [apply same_handles_refl|reflexivity]. }
    destruct (Hlatch eq_refl) as [Hd Hq].
    destruct (@CloseWorker_drains rt w Ho Hd Hq Hl Hb Hh Hfit)
      as (w' & E & _ & Hch & _ & Ho' & _ & _ & Hl' & Hc & Hb' & Hh' & Hhand).
    rewrite E. simpl.
    split; [reflexivity|].
    split.
    { split; [exact Hl'|]. split; [exact Hb'|]. split; [exact Hh'|].
      split; [rewrite Hch; intros e n b []|].
      rewrite Ho'. discriminate. }
    split; [exact Hhand|exact Hc].
  - (* a producer queues an entry *)
    unfold modify. simpl.
    split; [reflexivity|].
    split.
    { split; [exact Hl|]. split; [exact Hb|]. split; [exact Hh|].
      split; [|exact Hlatch].
      simpl. apply all_fit_app; [exact Hfit|exact Hg]. }
    split; [repeat split|reflexivity].
  - destruct Hg.
  - (* the file is put back *)
    unfold modify. simpl.
    split; [reflexivity|].
    split.
    { split; [exact Hl|]. split; [exact Hb|].
      split; [|split; [exact Hfit|exact Hlatch]].
      destruct Hh as (_ & Hf & Hc). repeat split; assumption. }
    split; [repeat split|reflexivity].
  - destruct Hg.
  - (* the file takes writes again *)
    unfold modify. simpl.
    split; [reflexivity|].
    split.
    { split; [exact Hl|]. split; [exact Hb|].
      split; [|split; [exact Hfit|exact Hlatch]].
      destruct Hh as (Hd & _ & Hc). repeat split; assumption. }
    split; [repeat split|reflexivity].
Qed.

Lemma run_ready (steps : list step) :
  forall w : Worker,
    ready w ->
    Forall (gentle w) steps ->
    panicked (run steps w) = false /\
    ready (final (run steps w)) /\
    calls (final (run steps w)) = calls w.
Proof.
  induction steps as [|s rest IH]; intros w Hready Hg.
  - simpl. split; [reflexivity|]. split; [exact Hready|reflexivity].
  - inversion Hg as [|? ? Hs Hrest]; subst.
    destruct (@perform_ready s w Hready Hs) as (Hp & Hr' & Hh & Hc).
    change (run (s :: rest) w) with (bind (perform s) (fun _ => run rest) w).
    unfold bind. destruct (perform s w) as [[] w'|w'|w']; simpl in Hp, Hr', Hh, Hc.
    + destruct (IH w' Hr') as (Hp2 & Hr2 & Hc2).
      { eapply Forall_impl; [|exact Hrest]. intros a. apply gentle_same_handles. exact Hh. }
      split; [exact Hp2|]. split; [exact Hr2|]. now rewrite Hc2.
    + discriminate Hp.
    + simpl. split; [reflexivity|]. split; [exact Hr'|exact Hc].
Qed.

(** The three ways a turn of the loop of [Work] goes. *)
Lemma Work_step_done (w : Worker) :
  done w = true -> Work_step w = Returns false w.
Proof. intros Hd. unfold Work_step, bind, get. now rewrite Hd. Qed.

Lemma Work_step_empty (w : Worker) :
  done w = false -> channel w = [] -> Work_step w = Parks w.
Proof.
  intros Hd Hch. unfold Work_step, bind, get. rewrite Hd.
  unfold receive. now rewrite Hch.
Qed.

Lemma Work_step_entry (w w' : Worker) (event : Entry) (rest : list Entry) :
  done w = false ->
  channel w = event :: rest ->
  writeToBuffer event (with_channel rest w) = Returns tt w' ->
  Work_step w = Returns true w'.
Proof.
  intros Hd Hch E. unfold Work_step, bind, get. rewrite Hd.
  unfold receive. rewrite Hch, E. reflexivity.
Qed.

(** The loop of [Work] over a queue whose entries all fit. *)
Lemma Work_over_queue (queue : list Entry) :
  forall (w : Worker) (fuel : nat),
    channel w = queue ->
    done w = false ->
    lock w = false ->
    in_bounds w ->
    healthy (fileRoot w) ->
    all_fit w queue ->
    (List.length queue < fuel)%nat ->
    exists w',
      Work fuel w = Parks w' /\
      channel w' = [] /\
      stream w' = stream w ++ rendered_all w (reads w) queue /\
      in_bounds w' /\
      lock w' = false /\
      done w' = false /\
      calls w' = calls w.
Proof.
  induction queue as [|event queue IH]; intros w fuel Hch Hd Hl Hb Hh Hfit Hfuel;
    (destruct fuel as [|fuel]; [simpl in Hfuel; lia|]).
  - exists w. simpl. unfold bind. rewrite (@Work_step_empty w Hd Hch), app_nil_r.
    repeat match goal with |- _ /\ _ => split end;
      first [reflexivity | assumption].
  - simpl in Hfuel.
    set (w1 := with_channel queue w).
    assert (Hfix1 : same_fixed w w1) by (repeat split).
    assert (Hstep : forall w2,
               writeToBuffer event w1 = Returns tt w2 ->
               Work (S fuel) w = Work fuel w2).
    { intros w2 E. simpl. unfold bind.
      now rewrite (@Work_step_entry w w2 event queue Hd Hch E). }
    destruct (rendered w (reads w) event) as [b|] eqn:Hr.
    + destruct (@writeToBuffer_keeps_stream rt event w1 b)
        as (w2 & Hw & Hl2 & Hb2 & Hh2 & Hs2 & Hfix2 & Hch2 & Hrd2 & Hc2);
        try assumption.
      { apply (Hfit event (reads w) b); [now left|exact Hr]. }
      assert (Hfix : same_fixed w w2) by exact (same_fixed_trans Hfix1 Hfix2).
      destruct (IH w2 fuel) as (w3 & E & Hch3 & Hs3 & Hb3 & Hl3 & Hd3 & Hc3);
        try assumption; try lia.
      { destruct Hfix as (_ & _ & _ & _ & _ & _ & _ & H). now rewrite H. }
      { apply (all_fit_same_fixed Hfix). eapply all_fit_tail; eassumption. }
      exists w3. rewrite (Hstep w2 Hw).
      split; [exact E|]. split; [exact Hch3|].
      split.
      { rewrite Hs3, Hs2, Hrd2. rewrite (rendered_all_same_fixed queue Hfix).
        change (stream w1) with (stream w). change (reads w1) with (reads w).
        simpl. rewrite Hr. now rewrite <- app_assoc. }
      split; [exact Hb3|]. split; [exact Hl3|]. split; [exact Hd3|].
      rewrite Hc3, Hc2. reflexivity.
    + assert (Hw : writeToBuffer event w1 = Returns tt w1).
      { rewrite writeToBuffer_rendered.
        rewrite (rendered_same_fixed _ event Hfix1). change (reads w1) with (reads w).
        now rewrite Hr. }
      destruct (IH w1 fuel) as (w3 & E & Hch3 & Hs3 & Hb3 & Hl3 & Hd3 & Hc3);
        try assumption; try reflexivity; try lia.
      { apply (all_fit_same_fixed Hfix1). eapply all_fit_tail; eassumption. }
      exists w3. rewrite (Hstep w1 Hw).
      split; [exact E|]. split; [exact Hch3|].
      split.
      { rewrite Hs3. rewrite (rendered_all_same_fixed queue Hfix1).
        simpl. rewrite Hr. reflexivity. }
      split; [exact Hb3|]. split; [exact Hl3|]. split; [exact Hd3|exact Hc3].
Qed.

(** [Work] on a worker in good order whose queued entries all fit.  While
    [done] is open the loop does not return: given more turns than there
    are entries it takes every entry off the queue, oldest first, appends
    their lines to the stream in that order and then waits on the empty
    queue, the callback not having run.  With [done] closed it returns at
    its first turn and leaves the queue as it is. *)
Theorem Work_drains_queue_in_order (w : Worker) (fuel : nat) :
  ready w ->
  (List.length (channel w) < fuel)%nat ->
  (done w = false ->
   let r := Work fuel w in
   parked r = true /\
   channel (final r) = [] /\
   stream (final r) = stream w ++ rendered_all w (reads w) (channel w) /\
   0 <= position (final r) <= capacity /\
   calls (final r) = calls w) /\
  (done w = true -> Work fuel w = Returns (Some tt) w).
Proof.
  intros (Hl & Hb & Hh & Hfit & _) Hfuel. split.
  - intros Hd r. subst r.
    destruct (@Work_over_queue (channel w) w fuel eq_refl Hd Hl Hb Hh Hfit Hfuel)
      as (w' & E & Hch & Hs & [_ Hr] & _ & _ & Hc).
    rewrite E. simpl.
    repeat match goal with |- _ /\ _ => split end;
      first [reflexivity | assumption | apply Hr].
  - intros Hd. destruct fuel as [|fuel]; [lia|].
    simpl. unfold bind. now rewrite (@Work_step_done w Hd).
Qed.

(** The worker [NewWorker] makes on a file in good order is [ready]: the
    buffer has [capacity] bytes, the cursor is 0, nothing is pending, the
    mutex is free, the handles are installed; the queue it is given has to
    hold entries whose lines fit. *)
Theorem NewWorker_is_ready (file : File) (queue : list Entry) :
  healthy file ->
  all_fit (NewWorker file queue) queue ->
  let w := NewWorker file queue in
  ready w /\
  handles_installed w /\
  position w = 0 /\
  pending w = [] /\
  stream w = contents file /\
  channel w = queue /\
  trace w = [].
Proof.
  intros Hh Hfit w. subst w.
  split.
  { split; [reflexivity|].
    split.
    { split; [|simpl; pose proof capacity_value; lia].
      unfold Go.len.
      change (buffer (NewWorker file queue)) with (repeat x00 (Z.to_nat capacity)).
      rewrite repeat_length. apply Z2Nat.id. rewrite capacity_value. lia. }
    split; [exact Hh|]. split; [exact Hfit|].
    intros _. split; reflexivity. }
  split; [repeat split|].
  split; [reflexivity|]. split; [reflexivity|].
  split; [unfold stream; simpl; apply app_nil_r|].
  split; reflexivity.
Qed.

(** From a worker in good order (one just made by [NewWorker], say), at
    every point of a run of appends of at most [capacity] bytes, entries
    whose lines fit, flushes, timer ticks, turns of [Work] and calls of
    [CloseWorker], on a file that stays in good order: nothing has
    panicked, the cursor is inside the buffer, the mutex is free, and the
    callback has not run. *)
Theorem run_stays_in_bounds (steps : list step) (w : Worker) :
  ready w ->
  Forall (gentle w) steps ->
  forall k : nat,
    let r := run (firstn k steps) w in
    panicked r = false /\
    0 <= position (final r) <= capacity /\
    Go.len (buffer (final r)) = capacity /\
    lock (final r) = false /\
    healthy (fileRoot (final r)) /\
    calls (final r) = calls w.
Proof.
  intros Hready Hg k r. subst r.
  destruct (@run_ready (firstn k steps) w Hready (Forall_prefix k Hg))
    as (Hp & (Hl & [Hb Hr] & Hh & _) & Hc).
  repeat match goal with |- _ /\ _ => split end; try assumption; apply Hr.
Qed.

End RunProperties.

(* ================================================================= *)
(** ** The facade *)

Section LoggerProperties.
Context {rt : Runtime}.

Import logWriter.
Import logger.
Local Open Scope go_scope.

Lemma send_with_room (entry : Entry) (l : Logger) :
  Go.len (channel l) < 2048 ->
  send entry l = Returns tt (with_channel (channel l ++ [entry]) l).
Proof.
  intros H. unfold send. destruct (Z.ltb_spec (Go.len (channel l)) 2048); [reflexivity|lia].
Qed.

Lemma logEntry_sends (level : Level) (args : list any) (l : Logger) :
  stopCh l = false ->
  Go.len (channel l) < 2048 ->
  logEntry level args l =
    Returns tt (with_channel (channel l ++ [NewEntry level (boxed args)]) l).
Proof.
  intros Hs Hr. unfold logEntry, bind, get. rewrite Hs. now apply send_with_room.
Qed.

Lemma logFormattedEntry_sends (level : Level) (format : string) (args : list any) (l : Logger) :
  stopCh l = false ->
  Go.len (channel l) < 2048 ->
  logFormattedEntry level format args l =
    Returns tt
      (with_channel (channel l ++ [NewFormattedEntry DebugLevel format (boxed args)]) l).
Proof.
  intros Hs Hr. unfold logFormattedEntry, bind, get. rewrite Hs. now apply send_with_room.
Qed.

(** C7. Whatever level it is called with, [logFormattedEntry] queues an
    entry at level Debug; so do [Infof], [Warnf] and [Errorf] whenever
    their own level is loggable. *)
Theorem logFormattedEntry_tags_Debug
  (l : Logger) (level : Level) (format : string) (args : list any) :
  stopCh l = false ->
  Go.len (channel l) < 2048 ->
  logFormattedEntry level format args l =
    Returns tt
      (with_channel
         (channel l ++ [{| level := DebugLevel; message := boxed args; format := format |}]) l) /\
  (isLoggable l InfoLevel = true ->
   Infof format args l =
     Returns tt
       (with_channel
          (channel l ++
           [{| level := DebugLevel; message := boxed [boxed args]; format := format |}]) l)) /\
  (isLoggable l WarnLevel = true ->
   Warnf format args l =
     Returns tt
       (with_channel
          (channel l ++
           [{| level := DebugLevel; message := boxed [boxed args]; format := format |}]) l)) /\
  (isLoggable l ErrorLevel = true ->
   Errorf format args l =
     Returns tt
       (with_channel
          (channel l ++
           [{| level := DebugLevel; message := boxed [boxed args]; format := format |}]) l)).
Proof.
  intros Hs Hr. split; [now apply logFormattedEntry_sends|].
  repeat split; intros Hl.
  - unfold Infof, bind, get. rewrite Hl. now apply logFormattedEntry_sends.
  - unfold Warnf, bind, get. rewrite Hl. now apply logFormattedEntry_sends.
  - unfold Errorf, bind, get. rewrite Hl. now apply logFormattedEntry_sends.
Qed.

(** The four plain methods queue an entry at their own level, their
    arguments boxed twice, whenever that level is loggable, the logger is
    not stopped and the queue has room. *)
Theorem plain_methods_keep_their_level (l : Logger) (args : list any) :
  stopCh l = false ->
  Go.len (channel l) < 2048 ->
  (isLoggable l DebugLevel = true ->
   Debug args l =
     Returns tt (with_channel (channel l ++ [NewEntry DebugLevel (boxed [boxed args])]) l)) /\
  (isLoggable l InfoLevel = true ->
   Info args l =
     Returns tt (with_channel (channel l ++ [NewEntry InfoLevel (boxed [boxed args])]) l)) /\
  (isLoggable l WarnLevel = true ->
   Warn args l =
     Returns tt (with_channel (channel l ++ [NewEntry WarnLevel (boxed [boxed args])]) l)) /\
  (isLoggable l ErrorLevel = true ->
   Error args l =
     Returns tt (with_channel (channel l ++ [NewEntry ErrorLevel (boxed [boxed args])]) l)).
Proof.
  intros Hs Hr. repeat split; intros Hl.
  - unfold Debug, bind, get. rewrite Hl. now apply logEntry_sends.
  - unfold Info, bind, get. rewrite Hl. now apply logEntry_sends.
  - unfold Warn, bind, get. rewrite Hl. now apply logEntry_sends.
  - unfold Error, bind, get. rewrite Hl. now apply logEntry_sends.
Qed.

(** A method whose level is not loggable returns at once and leaves the
    logger as it was. *)
Lemma not_loggable_returns (l : Logger) (format : string) (args : list any) :
  (isLoggable l DebugLevel = false ->
   Debug args l = Returns tt l /\ Debugf format args l = Returns tt l) /\
  (isLoggable l InfoLevel = false ->
   Info args l = Returns tt l /\ Infof format args l = Returns tt l) /\
  (isLoggable l WarnLevel = false ->
   Warn args l = Returns tt l /\ Warnf format args l = Returns tt l) /\
  (isLoggable l ErrorLevel = false ->
   Error args l = Returns tt l /\ Errorf format args l = Returns tt l).
Proof.
  repeat split; intros;
    unfold Debug, Debugf, Info, Infof, Warn, Warnf, Error, Errorf, bind, get;
    match goal with H : isLoggable _ _ = false |- _ => now rewrite H end.
Qed.

(** With the status set to off no level is loggable and each of the eight
    methods returns without queueing anything, whatever the logger's
    level; the status reads back as it was set. *)
Theorem SetStatus_off_silences (l : Logger) (format : string) (args : list any) :
  let l' := SetStatus false l in
  GetStatus l' = false /\
  GetStatus (SetStatus true l) = true /\
  (forall level, isLoggable l' level = false) /\
  Debug args l' = Returns tt l' /\ Info args l' = Returns tt l' /\
  Warn args l' = Returns tt l' /\ Error args l' = Returns tt l' /\
  Debugf format args l' = Returns tt l' /\ Infof format args l' = Returns tt l' /\
  Warnf format args l' = Returns tt l' /\ Errorf format args l' = Returns tt l'.
Proof.
  intros l'.
  assert (Hn : forall level, isLoggable l' level = false) by (intros level; reflexivity).
  destruct (not_loggable_returns l' format args) as (Hd & Hi & Hw & He).
  split; [reflexivity|]. split; [reflexivity|]. split; [exact Hn|].
  repeat match goal with |- _ /\ _ => split end;
    first [apply Hd | apply Hi | apply Hw | apply He]; apply Hn.
Qed.

(** The level is a threshold: with the status on, a level is loggable when
    it is at most the logger's level.  The level of a [uint32] logger is
    never below [ErrorLevel], so [Error] and [Errorf] are filtered by
    the status alone; [Debug], [Info] and [Warn] and their formatted forms
    return without queueing when the logger's level is below theirs.
    [SetLevel] sets the level that [GetLevel] reads and leaves the status. *)
Theorem level_is_a_threshold (l : Logger) (format : string) (args : list any) :
  0 <= logLevel l ->
  (forall level, isLoggable l level = GetStatus l && (level <=? logLevel l)) /\
  isLoggable l ErrorLevel = GetStatus l /\
  (logLevel l < DebugLevel ->
   Debug args l = Returns tt l /\ Debugf format args l = Returns tt l) /\
  (logLevel l < InfoLevel ->
   Info args l = Returns tt l /\ Infof format args l = Returns tt l) /\
  (logLevel l < WarnLevel ->
   Warn args l = Returns tt l /\ Warnf format args l = Returns tt l) /\
  (forall threshold,
     GetLevel (SetLevel threshold l) = threshold /\
     GetStatus (SetLevel threshold l) = GetStatus l).
Proof.
  intros H0.
  assert (Hall : forall level,
             isLoggable l level = GetStatus l && (level <=? logLevel l)).
  { intros level. unfold isLoggable, GetStatus.
    rewrite Z.geb_leb. destruct (utils.Get (status l)); reflexivity. }
  assert (Hbelow : forall level, logLevel l < level -> isLoggable l level = false).
  { intros level H. rewrite Hall.
    destruct (Z.leb_spec level (logLevel l)); [lia|apply andb_false_r]. }
  destruct (not_loggable_returns l format args) as (Hd & Hi & Hw & _).
  split; [exact Hall|].
  split.
  { rewrite Hall. destruct (Z.leb_spec ErrorLevel (logLevel l)) as [_|H];
      [apply andb_true_r|unfold ErrorLevel in H; lia]. }
  split; [intros H; apply Hd, Hbelow, H|].
  split; [intros H; apply Hi, Hbelow, H|].
  split; [intros H; apply Hw, Hbelow, H|].
  intros threshold. split; reflexivity.
Qed.

(** With 2048 entries queued and the logger not stopped, a send does not
    return: the producer waits for the worker to take an entry, and the
    entry is neither queued nor dropped. *)
Theorem send_on_full_channel_waits
  (l : Logger) (level : Level) (format : string) (args : list any) :
  stopCh l = false ->
  2048 <= Go.len (channel l) ->
  logEntry level args l = Parks l /\
  logFormattedEntry level format args l = Parks l.
Proof.
  intros Hs Hf.
  assert (E : forall entry, send entry l = Parks l).
  { intros entry. unfold send.
    destruct (Z.ltb_spec (Go.len (channel l)) 2048); [lia|reflexivity]. }
  split.
  - unfold logEntry, bind, get. rewrite Hs. apply E.
  - unfold logFormattedEntry, bind, get. rewrite Hs. apply E.
Qed.

(** With the stop channel closed the two senders return without
    queueing, so none of the eight methods changes the logger. *)
Lemma stopped_returns (l : Logger) (format : string) (args : list any) :
  stopCh l = true ->
  Debug args l = Returns tt l /\ Info args l = Returns tt l /\
  Warn args l = Returns tt l /\ Error args l = Returns tt l /\
  Debugf format args l = Returns tt l /\ Infof format args l = Returns tt l /\
  Warnf format args l = Returns tt l /\ Errorf format args l = Returns tt l.
Proof.
  intros Hs.
  assert (E1 : forall level a, logEntry level a l = Returns tt l)
    by (intros; unfold logEntry, bind, get; now rewrite Hs).
  assert (E2 : forall level f a, logFormattedEntry level f a l = Returns tt l)
    by (intros; unfold logFormattedEntry, bind, get; now rewrite Hs).
  repeat match goal with |- _ /\ _ => split end;
    unfold Debug, Debugf, Info, Infof, Warn, Warnf, Error, Errorf, bind, get;
    cbv beta iota;
    match goal with |- context [isLoggable ?a ?b] => destruct (isLoggable a b) end;
    first [apply E1 | apply E2 | reflexivity].
Qed.

(** The first [CloseLogger] in terms of the [CloseWorker] it makes. *)
Lemma CloseLogger_first (l : Logger) :
  once l = false ->
  stopCh l = false ->
  CloseLogger l =
    match CloseWorker (worker l) with
    | Returns _ w =>
        Returns tt
          (mkLogger true (filename l) (logLevel l) (status l) true
             (with_fileRoot (File_Close (fileRoot w)) w))
    | Panics w => Panics (mkLogger true (filename l) (logLevel l) (status l) true w)
    | Parks w => Parks (mkLogger true (filename l) (logLevel l) (status l) true w)
    end.
Proof.
  intros Ho Hs. unfold CloseLogger, bind, get. cbv beta iota. rewrite Ho.
  unfold modify, close_stopCh, on_worker.
  cbn [once stopCh worker filename logLevel status]. rewrite Hs.
  cbn [once stopCh worker filename logLevel status].
  destruct (CloseWorker (worker l)) as [[] w|w|w]; reflexivity.
Qed.

(** The logger after a first [CloseLogger] that returns: the stop channel
    and the file handle are closed, each of the eight methods returns
    without queueing anything, and a second [CloseLogger] does nothing. *)
Theorem CloseLogger_then_silent
  (l l' : Logger) (format : string) (args : list any) :
  once l = false ->
  CloseLogger l = Returns tt l' ->
  stopCh l' = true /\
  closed (fileRoot (worker l')) = true /\
  CloseLogger l' = Returns tt l' /\
  Debug args l' = Returns tt l' /\ Info args l' = Returns tt l' /\
  Warn args l' = Returns tt l' /\ Error args l' = Returns tt l' /\
  Debugf format args l' = Returns tt l' /\ Infof format args l' = Returns tt l' /\
  Warnf format args l' = Returns tt l' /\ Errorf format args l' = Returns tt l'.
Proof.
  intros Ho H.
  assert (Hshape : stopCh l' = true /\ once l' = true /\
                   closed (fileRoot (worker l')) = true).
  { destruct (stopCh l) eqn:Hs.
    - unfold CloseLogger, bind, get, modify, close_stopCh in H.
      cbv beta iota in H. rewrite Ho in H.
      cbn [once stopCh worker filename logLevel status] in H.
      rewrite Hs in H. discriminate H.
    - rewrite (CloseLogger_first l Ho Hs) in H.
      destruct (CloseWorker (worker l)) as [[] w'|w'|w']; try discriminate H.
      inversion H. subst l'. repeat split. }
  destruct Hshape as (Hs & Ho' & Hc).
  split; [exact Hs|]. split; [exact Hc|].
  split; [unfold CloseLogger, bind, get; now rewrite Ho'|].
  exact (stopped_returns l' format args Hs).
Qed.


End LoggerProperties.

(* ================================================================= *)
(** ** Runs on sample inputs *)

Section Samples.

Import logWriter.
Local Open Scope go_scope.

Ltac evaluate :=
  intros;
  repeat match goal with |- _ /\ _ => split end;
  vm_compute; reflexivity.

(** C8, as the specification words it, fails: between the timestamp and
    the message the line carries the file name and line number of the
    call in writer.go. *)
Lemma rendered_line_is_not_the_claimed_one :
  returned (writeToBuffer greeting fresh) = Some tt /\
  pending (final (writeToBuffer greeting fresh)) =
    Go.bytes ("[INFO]  2009/01/23 01:23:23.123123 writer.go:143: said hello" ++ log.newline) /\
  Go.bytes (claimed_line "[INFO]  " sample_time "said hello") =
    Go.bytes ("[INFO]  2009/01/23 01:23:23.123123 said hello" ++ log.newline) /\
  pending (final (writeToBuffer greeting fresh)) <>
    Go.bytes (claimed_line "[INFO]  " sample_time "said hello").
Proof.
  split; [vm_compute; reflexivity|].
  split; [vm_compute; reflexivity|].
  split; [vm_compute; reflexivity|].
  intros H. vm_compute in H. discriminate H.
Qed.

(** C1 on the code.  One append of 32769 bytes to a worker just made
    leaves the cursor at 32769; 32000 bytes followed, with the file gone,
    by 1000 more leave it at 33000.  Both calls return without error. *)
Theorem cursor_passes_capacity :
  capacity = 32768 /\
  returned (Write (span 32769) fresh) = Some (0, None) /\
  position (final (Write (span 32769) fresh)) = 32769 /\
  returned (run [DoWrite (span 32000); Unlink; DoWrite (span 1000)] fresh) = Some tt /\
  position (final (run [DoWrite (span 32000); Unlink; DoWrite (span 1000)] fresh)) = 33000.
Proof.
  evaluate.
Qed.

(** C2 on the code.  With the cursor past the end of the buffer, the next
    flush slices [buffer[0:position]] out of range and the next append
    slices [buffer[position:]] out of range: both panic. *)
Theorem flush_and_append_panic_past_capacity :
  panicked (run [DoWrite (span 32769); DoSave] fresh) = true /\
  panicked (run [DoWrite (span 32769); DoTick] fresh) = true /\
  panicked (run [DoWrite (span 32769); DoWrite (span 1)] fresh) = true /\
  panicked (run [DoWrite (span 32000); Unlink; DoWrite (span 1000); DoWrite (span 1)] fresh)
    = true /\
  panicked (run [DoWrite (span 32000); Unlink; DoWrite (span 1000); Recreate; DoSave] fresh)
    = true.
Proof.
  evaluate.
Qed.

(** C3 on the code.  32000 bytes are pending and the file is gone; an
    append of 1000 bytes triggers the flush, which runs the callback and
    reports no error, so the append goes on: it returns no error, 768 of
    the 1000 bytes land in the buffer and the cursor moves to 33000. *)
Theorem append_goes_on_after_missing_file :
  let before := final (run [DoWrite (span 32000); Unlink] fresh) in
  let after := Write (span 1000) before in
  position before = 32000 /\
  returned after = Some (0, None) /\
  calls (final after) = 1%nat /\
  writes (final after) = 0%nat /\
  position (final after) = 33000 /\
  skipn (Z.to_nat 32000) (buffer before) = repeat "000"%byte (Z.to_nat 768) /\
  skipn (Z.to_nat 32000) (buffer (final after)) = span 768.
Proof.
  evaluate.
Qed.

(** C4 on the code.  With an entry queued whose line is longer than the
    buffer, and the file in good order, [CloseWorker] panics in its final
    flush; nothing of the entry has reached the file. *)
Theorem close_panics_on_long_entry :
  panicked (CloseWorker (with_channel [oversized] fresh)) = true /\
  contents (fileRoot (final (CloseWorker (with_channel [oversized] fresh)))) = [] /\
  position (final (CloseWorker (with_channel [oversized] fresh))) = 32819.
Proof.
  evaluate.
Qed.

(** C5 on the code.  Five bytes are pending and every write fails.  A
    timer tick runs the callback once; [CloseWorker] makes its two flushes,
    both fail, and the callback does not run.  The bytes stay pending. *)
Theorem close_drops_the_write_error :
  returned (save jammed) = Some (0, Some Go.WriteError) /\
  calls (final (doTimerJob_tick jammed)) = 1%nat /\
  returned (CloseWorker jammed) = Some tt /\
  writes (final (CloseWorker jammed)) = 2%nat /\
  calls (final (CloseWorker jammed)) = 0%nat /\
  position (final (CloseWorker jammed)) = 5 /\
  pending (final (CloseWorker jammed)) = span 5.
Proof.
  evaluate.
Qed.

(** The theorems of the sections above, at sample inputs. *)

Lemma ParseLevel_String_roundtrip_witness :
  In InfoLevel AllLevels /\
  ParseLevel (rt := sample_runtime) (Level.String InfoLevel) = (InfoLevel, None) /\
  ParseLevel (rt := sample_runtime) "verbose" =
    (0, Some (Go.Errorf "not a valid logrus Level: %q" "verbose")).
Proof.
  destruct (@ParseLevel_String_roundtrip sample_runtime) as [H1 H2].
  assert (Hin : In InfoLevel AllLevels) by (simpl; auto).
  split; [exact Hin|]. split; [exact (H1 InfoLevel Hin)|].
  apply H2; intros H; vm_compute in H; discriminate H.
Defined.

Lemma save_with_empty_buffer_witness :
  position fresh = 0 /\
  save fresh = Returns (0, None) fresh /\
  (lock fresh = false -> doTimerJob_tick fresh = Returns tt fresh).
Proof.
  split; [reflexivity|].
  apply (@save_with_empty_buffer sample_runtime fresh). reflexivity.
Defined.

Lemma save_with_file_missing_witness :
  0 < position orphaned /\
  on_disk (fileRoot orphaned) = false /\
  save orphaned = Returns (0, None) (with_trace (trace orphaned ++ [Called]) orphaned).
Proof.
  split; [reflexivity|]. split; [reflexivity|].
  apply (@save_with_file_missing sample_runtime orphaned); reflexivity.
Defined.

Lemma logFormattedEntry_tags_Debug_witness :
  logger.stopCh sample_logger = false /\
  Go.len (logger.channel sample_logger) < 2048 /\
  logger.logFormattedEntry (rt := sample_runtime) ErrorLevel "%d files" ["3"%string]
    sample_logger =
    Returns tt
      (logger.with_channel
         [NewFormattedEntry (rt := sample_runtime) DebugLevel "%d files" "3"%string]
         sample_logger).
Proof.
  split; [reflexivity|]. split; [reflexivity|].
  apply (@logFormattedEntry_tags_Debug sample_runtime sample_logger ErrorLevel
           "%d files" ["3"%string]); reflexivity.
Defined.

Lemma rendered_line_layout_witness :
  handles_installed fresh /\
  In (level greeting) AllLevels /\
  rendered fresh (reads fresh) greeting =
    Some (Go.bytes
            ("[INFO]  2009/01/23 01:23:23.123123 writer.go:143: said hello" ++ log.newline)).
Proof.
  assert (H1 : handles_installed fresh).
  { unfold handles_installed.
    repeat match goal with |- _ /\ _ => split end; reflexivity. }
  assert (H2 : In (level greeting) AllLevels) by (simpl; auto).
  split; [exact H1|]. split; [exact H2|].
  destruct (@rendered_line_layout sample_runtime fresh greeting H1 H2) as [H _].
  rewrite H. vm_compute. reflexivity.
Defined.

(** More sample inputs, and the other theorems at them. *)

Ltac evaluated :=
  vm_compute;
  repeat match goal with |- _ /\ _ => split end;
  first [reflexivity | intro; discriminate].

Ltac lines_fit :=
  let Hin := fresh "Hin" in
  let Hr := fresh "Hr" in
  intros ? ? ? Hin Hr; simpl in Hin;
  repeat (destruct Hin as [<-|Hin]; [vm_compute in Hr; injection Hr as <-; evaluated|]);
  destruct Hin.

Lemma returns_final {S A : Type} (o : outcome S A) (a : A) :
  returned o = Some a -> o = Returns a (final o).
Proof.
  destruct o; simpl; intros H; inversion H; reflexivity.
Qed.

Lemma fresh_is_ready : ready fresh.
Proof.
  split; [reflexivity|]. split; [evaluated|]. split; [evaluated|].
  split; [lines_fit|]. intros _. split; reflexivity.
Qed.


Lemma jammed_is_in_bounds : in_bounds jammed.
Proof. evaluated. Qed.

Lemma ParseLevel_ignores_ascii_case_witness :
  fst (ParseLevel (rt := sample_runtime) "WaRn") =
  fst (ParseLevel (rt := sample_runtime) "warn").
Proof.
  apply (@ParseLevel_ignores_ascii_case sample_runtime "WaRn" "warn"); reflexivity.
Defined.


Lemma Write_failed_flush_holds_mutex_witness :
  lock (final (Write (span 32768) jammed)) = true /\
  doTimerJob_tick (final (Write (span 32768) jammed)) =
    Parks (final (Write (span 32768) jammed)).
Proof.
  assert (Hp : position jammed <> 0) by evaluated.
  assert (Hc : capacity < Go.len (span 32768) + position jammed) by evaluated.
  assert (Hd : Go.len (span 32768) < 2 ^ 62) by evaluated.
  destruct (@Write_failed_flush_holds_mutex sample_runtime (span 32768) jammed O
              eq_refl jammed_is_in_bounds Hp Hc Hd eq_refl eq_refl eq_refl)
    as (_ & _ & _ & _ & Hl & _ & Ht & _).
  split; [exact Hl|exact Ht].
Defined.

Lemma retry_after_partial_write_duplicates_witness :
  contents
    (fileRoot
       (final
          (run [DoSave; Mend; DoSave]
             (with_fileRoot (set_failing (Some 2%nat) sample_file) loaded)))) =
  span 2 ++ span 5.
Proof.
  set (w := with_fileRoot (set_failing (Some 2%nat) sample_file) loaded).
  assert (Hp : position w <> 0) by evaluated.
  assert (Hb : in_bounds w) by evaluated.
  destruct (@retry_after_partial_write_duplicates sample_runtime w 2%nat
              Hp Hb eq_refl eq_refl eq_refl) as (_ & _ & H & _).
  exact H.
Defined.

Lemma tick_runs_callback_iff_unhealthy_witness :
  calls (final (doTimerJob_tick orphaned)) = 1%nat /\
  position (final (doTimerJob_tick orphaned)) = 5.
Proof.
  assert (Hb : in_bounds orphaned) by evaluated.
  assert (Hp : position orphaned <> 0) by evaluated.
  destruct (@tick_runs_callback_iff_unhealthy sample_runtime orphaned eq_refl Hb Hp)
    as (_ & _ & _ & _ & H).
  apply H. intros (Hd & _). discriminate Hd.
Defined.

Lemma writeToBuffer_drops_unknown_level_witness :
  writeToBuffer (NewEntry (rt := sample_runtime) 7 "lost"%string) fresh = Returns tt fresh.
Proof.
  assert (Hn : ~ In (level (NewEntry (rt := sample_runtime) 7 "lost"%string)) AllLevels).
  { intros [H|[H|[H|[H|[]]]]]; discriminate H. }
  exact (proj1 (@writeToBuffer_drops_unknown_level sample_runtime _ fresh [] Hn)).
Defined.

Lemma Work_step_takes_oldest_witness :
  stream (final (Work_step (with_channel [hello; greeting] fresh))) =
    Go.bytes ("[INFO]  2009/01/23 01:23:23.123123 writer.go:145: hello" ++ log.newline) /\
  channel (final (Work_step (with_channel [hello; greeting] fresh))) = [greeting].
Proof.
  set (w := with_channel [hello; greeting] fresh).
  set (b := Go.bytes
              ("[INFO]  2009/01/23 01:23:23.123123 writer.go:145: hello" ++ log.newline)).
  assert (Hb : in_bounds w) by evaluated.
  assert (Hh : healthy (fileRoot w)) by evaluated.
  assert (Hr : rendered w (reads w) hello = Some b) by evaluated.
  assert (Hf : Go.len b <= capacity) by evaluated.
  destruct (@Work_step_takes_oldest sample_runtime w hello [greeting] b
              eq_refl eq_refl Hb Hh Hr Hf) as (_ & H).
  destruct (H eq_refl) as (_ & Hch & Hs & _).
  split; [exact Hs|exact Hch].
Defined.

Lemma Work_drains_queue_in_order_witness :
  parked (Work 5 (with_channel [hello; greeting] fresh)) = true /\
  stream (final (Work 5 (with_channel [hello; greeting] fresh))) =
    Go.bytes ("[INFO]  2009/01/23 01:23:23.123123 writer.go:145: hello" ++ log.newline)
    ++ Go.bytes ("[INFO]  2009/01/23 01:23:23.123123 writer.go:143: said hello" ++ log.newline).
Proof.
  set (w := with_channel [hello; greeting] fresh).
  assert (Hready : ready w).
  { split; [reflexivity|]. split; [evaluated|]. split; [evaluated|].
    split; [lines_fit|]. intros _. split; reflexivity. }
  assert (Hfuel : (List.length (channel w) < 5)%nat) by (simpl; lia).
  destruct (@Work_drains_queue_in_order sample_runtime w 5%nat Hready Hfuel) as (H & _).
  destruct (H eq_refl) as (Hp & _ & Hs & _).
  split; [exact Hp|]. rewrite Hs. vm_compute. reflexivity.
Defined.


Lemma NewWorker_is_ready_witness :
  ready (NewWorker (rt := sample_runtime) sample_file []).
Proof.
  assert (Hh : healthy sample_file) by evaluated.
  assert (Hfit : all_fit (NewWorker (rt := sample_runtime) sample_file []) [])
    by (intros ? ? ? []).
  exact (proj1 (@NewWorker_is_ready sample_runtime sample_file [] Hh Hfit)).
Defined.

Lemma run_stays_in_bounds_witness :
  panicked
    (run [Enqueue hello; DoWork; DoWrite (span 32768); DoTick; DoLog greeting;
          DoWrite (span 32768); DoClose; DoWork; DoWrite (span 10)] fresh) = false /\
  0 <= position
         (final
            (run [Enqueue hello; DoWork; DoWrite (span 32768); DoTick; DoLog greeting;
                  DoWrite (span 32768); DoClose; DoWork; DoWrite (span 10)] fresh))
    <= capacity.
Proof.
  set (steps := [Enqueue hello; DoWork; DoWrite (span 32768); DoTick; DoLog greeting;
                 DoWrite (span 32768); DoClose; DoWork; DoWrite (span 10)]).
  assert (Hg : Forall (gentle fresh) steps).
  { repeat (apply Forall_cons; [first [exact I | lines_fit | evaluated]|]).
    apply Forall_nil. }
  destruct (@run_stays_in_bounds sample_runtime steps fresh fresh_is_ready Hg 9%nat)
    as (Hp & Hr & _).
  split; [exact Hp|exact Hr].
Defined.

Lemma plain_methods_keep_their_level_witness :
  logger.Info (rt := sample_runtime) ["disk full"%string] sample_logger =
    Returns tt
      (logger.with_channel
         [NewEntry (rt := sample_runtime) InfoLevel "disk full"%string] sample_logger).
Proof.
  assert (Hr : Go.len (logger.channel sample_logger) < 2048) by evaluated.
  destruct (@plain_methods_keep_their_level sample_runtime sample_logger
              ["disk full"%string] eq_refl Hr) as (_ & H & _).
  exact (H eq_refl).
Defined.

Lemma level_is_a_threshold_witness :
  logger.Debug (rt := sample_runtime) ["noise"%string] sample_logger =
    Returns tt sample_logger /\
  logger.Debugf (rt := sample_runtime) "%s" ["noise"%string] sample_logger =
    Returns tt sample_logger.
Proof.
  assert (H0 : 0 <= logger.logLevel sample_logger) by evaluated.
  destruct (@level_is_a_threshold sample_runtime sample_logger "%s" ["noise"%string] H0)
    as (_ & _ & H & _).
  apply H. reflexivity.
Defined.

Lemma send_on_full_channel_waits_witness :
  parked
    (logger.logEntry (rt := sample_runtime) InfoLevel ["one more"%string]
       (logger.with_channel (repeat hello 2048) sample_logger)) = true.
Proof.
  set (l := logger.with_channel (repeat hello 2048) sample_logger).
  assert (Hf : 2048 <= Go.len (logger.channel l)) by evaluated.
  destruct (@send_on_full_channel_waits sample_runtime l InfoLevel "%s"
              ["one more"%string] eq_refl Hf) as (H & _).
  rewrite H. reflexivity.
Defined.

Lemma CloseLogger_then_silent_witness :
  logger.Error (rt := sample_runtime) ["too late"%string]
    (final (logger.CloseLogger sample_logger)) =
  Returns tt (final (logger.CloseLogger sample_logger)).
Proof.
  assert (H : logger.CloseLogger sample_logger =
              Returns tt (final (logger.CloseLogger sample_logger)))
    by (apply returns_final; evaluated).
  destruct (@CloseLogger_then_silent sample_runtime sample_logger _ "%s"
              ["too late"%string] eq_refl H)
    as (_ & _ & _ & _ & _ & _ & He & _).
  exact He.
Defined.


End Samples.
